(** * GAI-DWT: the walk-detection engine of the dog-walk tracker

  A shallow embedding of the geodesy helper [getDistance] and of the
  detection state machine of [App] ([startWalk], [handleManualStart],
  [processPositionUpdate]), with the properties the specification states
  about them.

  JavaScript numbers are kept behind an interface ([JSNumber]): the engine
  and everything proved about it are generic in the arithmetic, hence hold
  for IEEE doubles as well.  The geodesy identities are proved for the
  instance over the real numbers, where rounding is not modelled.
  Timestamps are the integer milliseconds that [Date.now()] returns. *)

From Stdlib Require Import ZArith List String Bool Reals Lra Lia QArith.
From Stdlib Require Import DecimalString.
From Stdlib Require DecimalZ DecimalPos.
From Stdlib Require Import Ascii.
Import ListNotations.

Set Implicit Arguments.
Local Open Scope Z_scope.

(** ** Numbers *)

Declare Scope js_scope.
Delimit Scope js_scope with js.

(** The operations of a JavaScript [number] that the source uses.  [lit q]
  is the number a decimal literal denotes.  The only law is that [>] and
  [<=] never hold together, which is the case for doubles (NaN included)
  and for reals. *)
Class JSNumber (num : Type) : Type := {
lit : Q -> num;
num_add : num -> num -> num;
num_sub : num -> num -> num;
num_mul : num -> num -> num;
num_div : num -> num -> num;
gtb : num -> num -> bool;
leb : num -> num -> bool;
Math_PI : num;
Math_sin : num -> num;
Math_cos : num -> num;
Math_sqrt : num -> num;
Math_atan2 : num -> num -> num;
gtb_not_leb : forall x y, gtb x y = true -> leb x y = false
}.

Infix "+" := num_add : js_scope.
Infix "-" := num_sub : js_scope.
Infix "*" := num_mul : js_scope.
Infix "/" := num_div : js_scope.
Infix ">?" := gtb (at level 70) : js_scope.
Infix "<=?" := leb (at level 70) : js_scope.

(** ** Constants *)

Section Constants.
Context {num : Type} `{JSNumber num}.

Definition HOME_RADIUS_KM : num := lit (5 # 100). (* 0.05: 50 meters *)
Definition WALK_START_CONFIRMATION_COUNT : Z := 3.
Definition WALK_END_CONFIRMATION_COUNT : Z := 2.
End Constants.

(** ** Helper functions *)

Section Geodesy.
Context {num : Type} `{JSNumber num}.
Local Open Scope js_scope.

Definition getDistance (lat1 lon1 lat2 lon2 : num) : num :=
  let R := lit (6371 # 1) in
  let dLat := (lat2 - lat1) * (Math_PI / lit (180 # 1)) in
  let dLon := (lon2 - lon1) * (Math_PI / lit (180 # 1)) in
  let a :=
    Math_sin (dLat / lit (2 # 1)) * Math_sin (dLat / lit (2 # 1)) +
    Math_cos (lat1 * (Math_PI / lit (180 # 1))) * Math_cos (lat2 * (Math_PI / lit (180 # 1))) *
    Math_sin (dLon / lit (2 # 1)) * Math_sin (dLon / lit (2 # 1)) in
  let c := lit (2 # 1) * Math_atan2 (Math_sqrt a) (Math_sqrt (lit (1 # 1) - a)) in
  R * c.
End Geodesy.

(** ** The instance over the real numbers *)

Module RealNumber.
Local Open Scope R_scope.

Definition gt_bool (x y : R) : bool := if Rgt_dec x y then true else false.
Definition le_bool (x y : R) : bool := if Rle_dec x y then true else false.

(** The two-argument arctangent, by quadrant. *)
Definition atan2 (y x : R) : R :=
  if Rlt_dec 0 x then atan (y / x)
  else if Rlt_dec x 0 then
    if Rle_dec 0 y then atan (y / x) + PI else atan (y / x) - PI
  else if Rlt_dec 0 y then PI / 2
  else if Rlt_dec y 0 then - (PI / 2)
  else 0.

#[export] Instance number : JSNumber R.
Proof.
  refine {|
    lit := Q2R;
    num_add := Rplus;
    num_sub := Rminus;
    num_mul := Rmult;
    num_div := Rdiv;
    gtb := gt_bool;
    leb := le_bool;
    Math_PI := PI;
    Math_sin := sin;
    Math_cos := cos;
    Math_sqrt := sqrt;
    Math_atan2 := atan2
  |}.
  intros x y. unfold gt_bool, le_bool.
  destruct (Rgt_dec x y), (Rle_dec x y); intros; try reflexivity; try discriminate; lra.
Defined.

End RealNumber.


(** ** Types *)

Module Zone.
Record t (num : Type) : Type := mk {
  id : string;
  name : string;
  latitude : num;
  longitude : num;
  radius : num;
  color : string
}.
End Zone.

(** An element of [Walk.path]: [{ lat, lng }]. *)
Module LatLng.
Record t (num : Type) : Type := mk {
  lat : num;
  lng : num
}.
End LatLng.

Module Walk.
Record t (num : Type) : Type := mk {
  id : string;
  startTime : Z;
  endTime : option Z;
  duration : Z;
  distance : num;
  path : list (LatLng.t num);
  zonesVisited : list string
}.
End Walk.

Module NotificationSettings.
Record t : Type := mk {
  enabled : bool;
  hours : Z
}.
End NotificationSettings.

Module StoredData.
Record t (num : Type) : Type := mk {
  homeZone : option (Zone.t num);
  customZones : list (Zone.t num);
  walks : list (Walk.t num);
  settings : NotificationSettings.t
}.
End StoredData.

(** What the engine reads of a [GeolocationPosition]: [pos.coords]. *)
Module Position.
Record t (num : Type) : Type := mk {
  latitude : num;
  longitude : num
}.
End Position.

(** The values of [walkStatusRef]. *)
Inductive WalkStatus : Type := at_home | leaving | walking | returning.

Definition WalkStatus_eqb (a b : WalkStatus) : bool :=
  match a, b with
  | at_home, at_home | leaving, leaving | walking, walking | returning, returning => true
  | _, _ => false
  end.

(** The object held by [confirmationRef]. *)
Module Confirmation.
Record t (num : Type) : Type := mk {
  points : Z;
  startTime : Z;
  startPosition : option (LatLng.t num)
}.
End Confirmation.

(** The state of the [App] component that the engine reads and writes: the
    React state cells and the two refs.  A callback runs against the state of
    the latest render and its updates are visible to the next one. *)
Module App.
Record t (num : Type) : Type := mk {
  currentPosition : option (Position.t num);
  isWalking : bool;
  currentWalk : option (Walk.t num);
  storedData : StoredData.t num;
  walkStatusRef : WalkStatus;
  confirmationRef : Confirmation.t num
}.
End App.

(** ** The engine *)

Section Engine.
Context {num : Type} `{JSNumber num}.
Local Open Scope js_scope.

Local Abbreviation App := (App.t num).
Local Abbreviation Walk := (Walk.t num).
Local Abbreviation Zone := (Zone.t num).
Local Abbreviation LatLng := (LatLng.t num).
Local Abbreviation Position := (Position.t num).
Local Abbreviation StoredData := (StoredData.t num).

(** State setters: [setCurrentPosition], [setIsWalking], [setCurrentWalk],
    assignments to the refs, and [saveData], which stores the blob and calls
    [setStoredData]. *)
Definition setCurrentPosition (p : option Position) (s : App) : App :=
  App.mk p (App.isWalking s) (App.currentWalk s) (App.storedData s)
    (App.walkStatusRef s) (App.confirmationRef s).

Definition setIsWalking (b : bool) (s : App) : App :=
  App.mk (App.currentPosition s) b (App.currentWalk s) (App.storedData s)
    (App.walkStatusRef s) (App.confirmationRef s).

Definition setCurrentWalk (w : option Walk) (s : App) : App :=
  App.mk (App.currentPosition s) (App.isWalking s) w (App.storedData s)
    (App.walkStatusRef s) (App.confirmationRef s).

Definition saveData (d : StoredData) (s : App) : App :=
  App.mk (App.currentPosition s) (App.isWalking s) (App.currentWalk s) d
    (App.walkStatusRef s) (App.confirmationRef s).

Definition setWalkStatus (st : WalkStatus) (s : App) : App :=
  App.mk (App.currentPosition s) (App.isWalking s) (App.currentWalk s) (App.storedData s)
    st (App.confirmationRef s).

Definition setConfirmation (c : Confirmation.t num) (s : App) : App :=
  App.mk (App.currentPosition s) (App.isWalking s) (App.currentWalk s) (App.storedData s)
    (App.walkStatusRef s) c.

(** [`walk_${startTime}`] *)
Definition walk_id (startTime : Z) : string :=
  ("walk_" ++ NilZero.string_of_int (Z.to_int startTime))%string.

(** A JavaScript [Set] of strings, as the list of its elements in insertion
    order; [Array.from] of the set is that list. *)
Definition Set_has (x : string) (l : list string) : bool := existsb (String.eqb x) l.

Definition Set_add (x : string) (l : list string) : list string :=
  if Set_has x l then l else (l ++ [x])%list.

Definition Set_new (l : list string) : list string :=
  fold_left (fun acc x => Set_add x acc) l [].

Definition startWalk (startTime : Z) (startPosition : LatLng) (s : App) : App :=
  if App.isWalking s then s
  else
    let newWalk := Walk.mk (walk_id startTime) startTime None 0 (lit 0) [startPosition] [] in
    setWalkStatus walking (setIsWalking true (setCurrentWalk (Some newWalk) s)).

(** [now] is the reading of [Date.now()]; without a position the source only
    raises an alert. *)
Definition handleManualStart (now : Z) (s : App) : App :=
  match App.currentPosition s with
  | Some currentPosition =>
      startWalk now
        (LatLng.mk (Position.latitude currentPosition) (Position.longitude currentPosition)) s
  | None => s
  end.

(** The zone loop of the walking branch: [customZones.forEach(z => ...)]. *)
Definition visitZones (latitude longitude : num) (customZones : list Zone)
    (visitedZones : list string) : list string :=
  fold_left
    (fun visited z =>
       if getDistance latitude longitude (Zone.latitude z) (Zone.longitude z) <=? Zone.radius z
       then Set_add (Zone.name z) visited else visited)
    customZones visitedZones.

(** [now] is the reading of [Date.now()] during the call, the timestamp of
    the sample.  Two places of the source have no counterpart in the types
    here and are shown unreachable below ([consistent]): reading
    [lastPoint.lat] on an empty path throws, which leaves only the update of
    [currentPosition]; and the non-null assertion on [startPosition], where
    the model starts no walk. *)
Definition processPositionUpdate (now : Z) (pos : Position) (s0 : App) : App :=
  let s := setCurrentPosition (Some pos) s0 in
  match StoredData.homeZone (App.storedData s) with
  | None => s
  | Some homeZone =>
    let latitude := Position.latitude pos in
    let longitude := Position.longitude pos in
    let distanceFromHome :=
      getDistance latitude longitude (Zone.latitude homeZone) (Zone.longitude homeZone) in
    let conf := App.confirmationRef s in
    if WalkStatus_eqb (App.walkStatusRef s) at_home && (distanceFromHome >? HOME_RADIUS_KM) then
      setConfirmation (Confirmation.mk 1 now (Some (LatLng.mk latitude longitude)))
        (setWalkStatus leaving s)
    else if WalkStatus_eqb (App.walkStatusRef s) leaving then
      if distanceFromHome >? HOME_RADIUS_KM then
        let conf' := Confirmation.mk (Confirmation.points conf + 1)%Z
                       (Confirmation.startTime conf) (Confirmation.startPosition conf) in
        let s1 := setConfirmation conf' s in
        if (Confirmation.points conf' >=? WALK_START_CONFIRMATION_COUNT)%Z then
          match Confirmation.startPosition conf' with
          | Some startPosition => startWalk (Confirmation.startTime conf') startPosition s1
          | None => s1
          end
        else s1
      else setWalkStatus at_home s
    else
      match WalkStatus_eqb (App.walkStatusRef s) walking, App.currentWalk s with
      | true, Some currentWalk =>
        match nth_error (Walk.path currentWalk) (List.length (Walk.path currentWalk) - 1)%nat with
        | None => s
        | Some lastPoint =>
          let newDistance :=
            getDistance (LatLng.lat lastPoint) (LatLng.lng lastPoint) latitude longitude in
          let visitedZones :=
            visitZones latitude longitude (StoredData.customZones (App.storedData s))
              (Set_new (Walk.zonesVisited currentWalk)) in
          let s1 :=
            setCurrentWalk
              (Some (Walk.mk (Walk.id currentWalk) (Walk.startTime currentWalk)
                       (Walk.endTime currentWalk) (Walk.duration currentWalk)
                       (Walk.distance currentWalk + newDistance)
                       (Walk.path currentWalk ++ [LatLng.mk latitude longitude])
                       visitedZones)) s in
          if distanceFromHome <=? HOME_RADIUS_KM then
            setConfirmation (Confirmation.mk 1 now None) (setWalkStatus returning s1)
          else s1
        end
      | _, _ =>
        if WalkStatus_eqb (App.walkStatusRef s) returning then
          if distanceFromHome <=? HOME_RADIUS_KM then
            let conf' := Confirmation.mk (Confirmation.points conf + 1)%Z
                           (Confirmation.startTime conf) (Confirmation.startPosition conf) in
            let s1 := setConfirmation conf' s in
            match (Confirmation.points conf' >=? WALK_END_CONFIRMATION_COUNT)%Z,
                  App.currentWalk s with
            | true, Some currentWalk =>
              let endTime := Confirmation.startTime conf' in
              let completedWalk :=
                Walk.mk (Walk.id currentWalk) (Walk.startTime currentWalk) (Some endTime)
                  ((endTime - Walk.startTime currentWalk) / 1000)%Z
                  (Walk.distance currentWalk) (Walk.path currentWalk)
                  (Walk.zonesVisited currentWalk) in
              let storedData := App.storedData s in
              setWalkStatus at_home
                (setIsWalking false
                   (setCurrentWalk None
                      (saveData
                         (StoredData.mk (StoredData.homeZone storedData)
                            (StoredData.customZones storedData)
                            (StoredData.walks storedData ++ [completedWalk])
                            (StoredData.settings storedData)) s1)))
            | _, _ => s1
            end
          else setWalkStatus walking s
        else s
      end
  end.

(** ** Runs of the engine *)

(** What reaches the engine: a position sample, or the press of the
    manual start button. *)
Inductive Input : Type :=
| Sample (now : Z) (pos : Position)
| ManualStart (now : Z).

Definition step (s : App) (i : Input) : App :=
  match i with
  | Sample now pos => processPositionUpdate now pos s
  | ManualStart now => handleManualStart now s
  end.

Definition run (s : App) (inputs : list Input) : App := fold_left step inputs s.

(** The state of a freshly mounted component with its stored data loaded. *)
Definition initial (data : StoredData) : App :=
  App.mk None false None data at_home (Confirmation.mk 0 0 None).

End Engine.

Arguments Input : clear implicits.

(** ** Vocabulary of the specification *)

Section Vocabulary.
Context {num : Type} `{JSNumber num}.
Local Open Scope js_scope.

Definition distanceFromHome (homeZone : Zone.t num) (pos : Position.t num) : num :=
  getDistance (Position.latitude pos) (Position.longitude pos)
    (Zone.latitude homeZone) (Zone.longitude homeZone).

(** A sample beyond the home radius, and one within it. *)
Definition beyondHome (homeZone : Zone.t num) (pos : Position.t num) : Prop :=
  (distanceFromHome homeZone pos >? HOME_RADIUS_KM) = true.

Definition withinHome (homeZone : Zone.t num) (pos : Position.t num) : Prop :=
  (distanceFromHome homeZone pos <=? HOME_RADIUS_KM) = true.

(** A point within the radius of a named zone. *)
Definition withinZone (z : Zone.t num) (p : LatLng.t num) : Prop :=
  (getDistance (LatLng.lat p) (LatLng.lng p) (Zone.latitude z) (Zone.longitude z)
     <=? Zone.radius z) = true.

(** The path point a sample becomes. *)
Definition pathPoint (pos : Position.t num) : LatLng.t num :=
  LatLng.mk (Position.latitude pos) (Position.longitude pos).

(** The distances between consecutive points of a path, and their sum,
    added up from zero in path order. *)
Fixpoint legs (l : list (LatLng.t num)) : list num :=
  match l with
  | a :: (b :: _) as rest =>
      getDistance (LatLng.lat a) (LatLng.lng a) (LatLng.lat b) (LatLng.lng b) :: legs rest
  | _ => []
  end.

Definition pathLength (l : list (LatLng.t num)) : num :=
  fold_left num_add (legs l) (lit 0).

(** The detection states in which a walk is under way. *)
Definition in_walk (st : WalkStatus) : bool :=
  match st with
  | walking | returning => true
  | at_home | leaving => false
  end.

Definition isSome {A : Type} (o : option A) : bool :=
  match o with Some _ => true | None => false end.

(** The states the engine can be in: the flag, the walk and the detection
    state agree, a pending start has its position, and a path has its seed.
    Every state reached from the initial one is of this kind. *)
Definition consistent (s : App.t num) : Prop :=
  App.isWalking s = in_walk (App.walkStatusRef s) /\
  App.isWalking s = isSome (App.currentWalk s) /\
  (App.walkStatusRef s = leaving ->
   Confirmation.startPosition (App.confirmationRef s) <> None) /\
  (forall w, App.currentWalk s = Some w -> Walk.path w <> []).

(** *** The samples a walk has seen

    Next to a run we record, for the walk in progress, the position it was
    started with and the samples that were processed in the walking state,
    in order.  The record is [None] when no walk is in progress. *)
Definition Seen : Type := option (LatLng.t num * list (LatLng.t num)).

(** The position a walk started by input [i] in state [s] is seeded with. *)
Definition candidateStart (s : App.t num) (i : Input num) : option (LatLng.t num) :=
  match i with
  | ManualStart _ => option_map pathPoint (App.currentPosition s)
  | Sample _ _ => Confirmation.startPosition (App.confirmationRef s)
  end.

Definition observe (s : App.t num) (i : Input num) (g : Seen) : Seen :=
  if negb (App.isWalking (step s i)) then None
  else if negb (App.isWalking s) then
    option_map (fun p => (p, [])) (candidateStart s i)
  else
    match i, g with
    | Sample _ pos, Some (seed, samples) =>
        if WalkStatus_eqb (App.walkStatusRef s) walking
           && isSome (StoredData.homeZone (App.storedData s))
        then Some (seed, samples ++ [pathPoint pos])
        else g
    | _, _ => g
    end.

Definition stepSeen (sg : App.t num * Seen) (i : Input num) : App.t num * Seen :=
  (step (fst sg) i, observe (fst sg) i (snd sg)).

Definition runSeen (s : App.t num) (inputs : list (Input num)) : App.t num * Seen :=
  fold_left stepSeen inputs (s, None).

Definition seen (data : StoredData.t num) (inputs : list (Input num)) : Seen :=
  snd (runSeen (initial data) inputs).

(** *** What a run maintains *)

(** A walk handed over to the history; the points of its path after the
    first are the samples it saw. *)
Definition finished (zones : list (Zone.t num)) (w : Walk.t num) : Prop :=
  Walk.endTime w <> None /\
  Walk.distance w = pathLength (Walk.path w) /\
  NoDup (Walk.zonesVisited w) /\
  (forall z p, In z zones -> In p (tl (Walk.path w)) -> withinZone z p ->
               In (Zone.name z) (Walk.zonesVisited w)).

(** The walk in progress against the record of what it has seen. *)
Definition tracked (zones : list (Zone.t num)) (w : Walk.t num)
    (seed : LatLng.t num) (samples : list (LatLng.t num)) : Prop :=
  Walk.path w = seed :: samples /\
  Walk.endTime w = None /\
  Walk.distance w = pathLength (Walk.path w) /\
  NoDup (Walk.zonesVisited w) /\
  (forall z p, In z zones -> In p samples -> withinZone z p ->
               In (Zone.name z) (Walk.zonesVisited w)).

Definition invariant (data : StoredData.t num) (sg : App.t num * Seen) : Prop :=
  consistent (fst sg) /\
  StoredData.customZones (App.storedData (fst sg)) = StoredData.customZones data /\
  (exists completed,
     StoredData.walks (App.storedData (fst sg)) = StoredData.walks data ++ completed /\
     Forall (finished (StoredData.customZones data)) completed) /\
  match App.currentWalk (fst sg), snd sg with
  | Some w, Some (seed, samples) => tracked (StoredData.customZones data) w seed samples
  | None, None => True
  | _, _ => False
  end.

End Vocabulary.

Arguments pathLength : simpl never.
Arguments getDistance : simpl never.
Arguments HOME_RADIUS_KM : simpl never.

(** ** Helper functions: formatting *)

(** [n.toString()] and [`${n}`] for an integer [n]. *)
Definition toString (n : Z) : string := NilZero.string_of_int (Z.to_int n).

(** [String.prototype.trim] on the strings built here, which are made of
    ASCII characters: the white space and line terminators below 128. *)
Definition isWhiteSpace (c : Ascii.ascii) : bool :=
  let n := Ascii.nat_of_ascii c in
  (Nat.eqb n 9 || Nat.eqb n 10 || Nat.eqb n 11 || Nat.eqb n 12 || Nat.eqb n 13
   || Nat.eqb n 32)%bool.

Fixpoint trimStart (s : string) : string :=
  match s with
  | EmptyString => EmptyString
  | String c rest => if isWhiteSpace c then trimStart rest else s
  end.

Fixpoint trimEnd (s : string) : string :=
  match s with
  | EmptyString => EmptyString
  | String c rest =>
      match trimEnd rest with
      | EmptyString => if isWhiteSpace c then EmptyString else String c EmptyString
      | rest' => String c rest'
      end
  end.

Definition trim (s : string) : string := trimEnd (trimStart s).

(** [a || b] on strings: the empty string is falsy. *)
Definition orElse (a b : string) : string :=
  match a with
  | EmptyString => b
  | _ => a
  end.

Inductive DurationStyle : Type := short | long.

(** [seconds] is an integer at every call; [%] is the remainder with the
    sign of the dividend. *)
Definition formatDuration (seconds : Z) (style : DurationStyle) : string :=
  let h := seconds / 3600 in
  let m := Z.rem seconds 3600 / 60 in
  let s := Z.rem seconds 60 in
  match style with
  | long =>
      let parts := [] in
      let parts := if h >? 0 then parts ++ [(toString h ++ " hr")%string] else parts in
      let parts := if m >? 0 then parts ++ [(toString m ++ " min")%string] else parts in
      let parts :=
        if (h =? 0) && (m =? 0) then parts ++ [(toString s ++ " sec")%string] else parts in
      orElse (String.concat " " parts) "0 sec"
  | short =>
      let result := EmptyString in
      let result := if h >? 0 then (result ++ toString h ++ "h ")%string else result in
      let result := if m >? 0 then (result ++ toString m ++ "m ")%string else result in
      let result :=
        if (h =? 0) && (m =? 0) then (result ++ toString s ++ "s")%string else result in
      orElse (trim result) "0s"
  end.

(** The result of [formatTimeSince]: [{ value, unit }]. *)
Module TimeSince.
Record t : Type := mk {
  value : string;
  unit : string
}.
End TimeSince.

(** [now] is the reading of [Date.now()]; the argument is [null] or
    [undefined] when there is no last walk or it has no end time. *)
Definition formatTimeSince (now : Z) (timestamp : option Z) : TimeSince.t :=
  match timestamp with
  | None => TimeSince.mk "" ""
  | Some timestamp =>
    if timestamp =? 0 then TimeSince.mk "" ""
    else
      let seconds := (now - timestamp) / 1000 in
      if seconds <? 60 then TimeSince.mk (toString seconds) "seconds"
      else
        let minutes := seconds / 60 in
        if minutes <? 60 then
          TimeSince.mk (toString minutes) (if minutes =? 1 then "minute" else "minutes")
        else
          let hours := minutes / 60 in
          if hours <? 24 then
            TimeSince.mk (toString hours) (if hours =? 1 then "hour" else "hours")
          else
            let days := hours / 24 in
            TimeSince.mk (toString days) (if days =? 1 then "day" else "days")
  end.

(** ** Keyed stores

    A JavaScript [Map] with string keys and [sessionStorage]: the entries in
    insertion order; setting a present key replaces its value in place. *)
Definition Store : Type := list (string * string).

Definition Store_get (key : string) (m : Store) : option string :=
  option_map snd (find (fun kv => String.eqb (fst kv) key) m).

Definition Store_set (key value : string) (m : Store) : Store :=
  if existsb (fun kv => String.eqb (fst kv) key) m
  then map (fun kv => if String.eqb (fst kv) key then (key, value) else kv) m
  else m ++ [(key, value)].

(** A walk whose reminder key holds a non-empty value in the session
    storage. *)
Definition marked (id : string) (sessionStorage : Store) : Prop :=
  exists c rest, Store_get ("notified_" ++ id) sessionStorage = Some (String c rest).

(** [Array.prototype.sort] with a comparator: the sort is stable, and with a
    consistent comparator its result is the stable sorted arrangement,
    which insertion from the right builds. *)
Fixpoint insertBy {A : Type} (compareFn : A -> A -> Z) (x : A) (l : list A) : list A :=
  match l with
  | [] => [x]
  | y :: rest => if compareFn x y <=? 0 then x :: l else y :: insertBy compareFn x rest
  end.

Definition sortBy {A : Type} (compareFn : A -> A -> Z) (l : list A) : list A :=
  fold_right (insertBy compareFn) [] l.

(** ** The rest of [App] *)

Section Application.
Context {num : Type} `{JSNumber num}.
Local Open Scope js_scope.

(** [endTime ?? 0] *)
Definition endTimeOrZero (w : Walk.t num) : Z :=
  match Walk.endTime w with
  | Some endTime => endTime
  | None => 0
  end.

(** The [lastWalk] memo. *)
Definition lastWalk (walks : list (Walk.t num)) : option (Walk.t num) :=
  match walks with
  | [] => None
  | _ => nth_error (sortBy (fun a b => (endTimeOrZero b - endTimeOrZero a)%Z) walks) 0
  end.

Definition setHome (pos : Position.t num) (s : App.t num) : App.t num :=
  let newHomeZone :=
    Zone.mk "home" "Home" (Position.latitude pos) (Position.longitude pos)
      HOME_RADIUS_KM "#A8A5A3" in
  let storedData := App.storedData s in
  saveData
    (StoredData.mk (Some newHomeZone) (StoredData.customZones storedData)
       (StoredData.walks storedData) (StoredData.settings storedData)) s.

(** [now] is the reading of [Date.now()] that names the zone. *)
Definition addZone (now : Z) (name : string) (lat lng radius : num) (color : string)
    (s : App.t num) : App.t num :=
  let newZone := Zone.mk ("zone_" ++ toString now)%string name lat lng radius color in
  let storedData := App.storedData s in
  saveData
    (StoredData.mk (StoredData.homeZone storedData)
       (StoredData.customZones storedData ++ [newZone])
       (StoredData.walks storedData) (StoredData.settings storedData)) s.

(** [confirmed] is the answer to the [confirm] dialog. *)
Definition deleteZone (confirmed : bool) (id : string) (s : App.t num) : App.t num :=
  if confirmed then
    let storedData := App.storedData s in
    saveData
      (StoredData.mk (StoredData.homeZone storedData)
         (filter (fun z => negb (String.eqb (Zone.id z) id))
            (StoredData.customZones storedData))
         (StoredData.walks storedData) (StoredData.settings storedData)) s
  else s.

Definition deleteWalk (confirmed : bool) (id : string) (s : App.t num) : App.t num :=
  if confirmed then
    let storedData := App.storedData s in
    saveData
      (StoredData.mk (StoredData.homeZone storedData)
         (StoredData.customZones storedData)
         (filter (fun w => negb (String.eqb (Walk.id w) id)) (StoredData.walks storedData))
         (StoredData.settings storedData)) s
  else s.

(** [onSettingsChange] as [App] passes it to the settings view. *)
Definition changeSettings (settings : NotificationSettings.t) (s : App.t num) : App.t num :=
  let storedData := App.storedData s in
  saveData
    (StoredData.mk (StoredData.homeZone storedData) (StoredData.customZones storedData)
       (StoredData.walks storedData) settings) s.

(** Everything that can happen to the component. *)
Inductive Action : Type :=
| Engine (i : Input num)
| SetHome (pos : Position.t num)
| AddZone (now : Z) (name : string) (lat lng radius : num) (color : string)
| DeleteZone (confirmed : bool) (id : string)
| DeleteWalk (confirmed : bool) (id : string)
| ChangeSettings (settings : NotificationSettings.t).

Definition act (s : App.t num) (a : Action) : App.t num :=
  match a with
  | Engine i => step s i
  | SetHome pos => setHome pos s
  | AddZone now name lat lng radius color => addZone now name lat lng radius color s
  | DeleteZone confirmed id => deleteZone confirmed id s
  | DeleteWalk confirmed id => deleteWalk confirmed id s
  | ChangeSettings settings => changeSettings settings s
  end.

Definition session (s : App.t num) (actions : list Action) : App.t num :=
  fold_left act actions s.

(** The position sampling the location effect sets up. *)
Inductive Sampling : Type := NoSampling | HighAccuracy | LowPower.

Definition sampling (permissionsGranted : bool) (s : App.t num) : Sampling :=
  if negb permissionsGranted || negb (isSome (StoredData.homeZone (App.storedData s)))
  then NoSampling
  else if App.isWalking s then HighAccuracy else LowPower.

(** What the home view shows: the walk in progress when
    [isWalking && currentWalk], the time since the last walk otherwise. *)
Definition showsWalkInProgress (s : App.t num) : bool :=
  App.isWalking s && isSome (App.currentWalk s).

(** The zone chips of the history view: [zoneColorMap] and the colour
    [zoneColorMap.get(zoneName) || '#A8A5A3']. *)
Definition zoneColorMap (customZones : list (Zone.t num)) : Store :=
  fold_left (fun m zone => Store_set (Zone.name zone) (Zone.color zone) m) customZones [].

Definition chipColor (customZones : list (Zone.t num)) (zoneName : string) : string :=
  match Store_get zoneName (zoneColorMap customZones) with
  | Some c => orElse c "#A8A5A3"
  | None => "#A8A5A3"
  end.

(** The reminder effect, at one firing of its five-minute timer: whether a
    notification is raised, and [sessionStorage] afterwards.  [now] is the
    reading of [Date.now()]. *)
Definition reminderTick (now : Z) (settings : NotificationSettings.t) (isWalking : bool)
    (lastWalk : option (Walk.t num)) (sessionStorage : Store) : bool * Store :=
  match lastWalk with
  | None => (false, sessionStorage)
  | Some lastWalk =>
    match Walk.endTime lastWalk with
    | None => (false, sessionStorage)
    | Some endTime =>
      if negb (NotificationSettings.enabled settings) || isWalking || (endTime =? 0)%Z
      then (false, sessionStorage)
      else if (now - endTime >=? NotificationSettings.hours settings * 3600000)%Z then
        let key := ("notified_" ++ Walk.id lastWalk)%string in
        match Store_get key sessionStorage with
        | Some (String _ _) => (false, sessionStorage)
        | _ => (true, Store_set key "true" sessionStorage)
        end
      else (false, sessionStorage)
    end
  end.

(** The reminder as the component runs it: on the walking flag, the
    settings and the last walk of the current state. *)
Definition remind (now : Z) (s : App.t num) (sessionStorage : Store) : bool * Store :=
  reminderTick now (StoredData.settings (App.storedData s)) (App.isWalking s)
    (lastWalk (StoredData.walks (App.storedData s))) sessionStorage.

(** The firings of the reminder timer over a session, each with the
    clock, the settings, the walking flag and the last walk of its moment;
    [notified] lists the ids of the walks a notification was raised for. *)
Definition Firing : Type := Z * NotificationSettings.t * bool * option (Walk.t num).

Fixpoint notified (firings : list Firing) (sessionStorage : Store) : list string :=
  match firings with
  | [] => []
  | (now, settings, isWalking, lastWalk) :: rest =>
      let (raised, sessionStorage') :=
        reminderTick now settings isWalking lastWalk sessionStorage in
      match raised, lastWalk with
      | true, Some w => Walk.id w :: notified rest sessionStorage'
      | _, _ => notified rest sessionStorage'
      end
  end.

(** *** The clock *)

Definition timeOf (i : Input num) : Z :=
  match i with
  | Sample now _ => now
  | ManualStart now => now
  end.

(** The readings of the clock never go back, from [t] on. *)
Fixpoint ticking (t : Z) (inputs : list (Input num)) : Prop :=
  match inputs with
  | [] => True
  | i :: rest => (t <= timeOf i)%Z /\ ticking (timeOf i) rest
  end.

Definition isSample (i : Input num) : bool :=
  match i with
  | Sample _ _ => true
  | ManualStart _ => false
  end.

End Application.

Arguments Action : clear implicits.

(** ** The zones form and the reminder switch *)

(** [parseInt(s, 10)]: leading white space is skipped, a sign is read, and
    the longest run of decimal digits that follows is the result; [None]
    is [NaN], when there is no digit. *)
Definition digitValue (c : Ascii.ascii) : option Z :=
  let n := Ascii.nat_of_ascii c in
  if (Nat.leb 48 n && Nat.leb n 57)%bool then Some (Z.of_nat (n - 48)) else None.

Fixpoint digitsPrefix (s : string) (acc : option Z) : option Z :=
  match s with
  | EmptyString => acc
  | String c rest =>
      match digitValue c with
      | Some d =>
          digitsPrefix rest
            (Some (10 * match acc with Some a => a | None => 0 end + d))
      | None => acc
      end
  end.

Definition parseInt (s : string) : option Z :=
  match trimStart s with
  | String "-" rest => option_map Z.opp (digitsPrefix rest None)
  | String "+" rest => digitsPrefix rest None
  | t => digitsPrefix t None
  end.

Definition ZONE_COLORS : list string :=
  ["#F87171"; "#60A5FA"; "#34D399"; "#FBBF24"; "#A78BFA"; "#F472B6"]%string.

(** The state of the zones view: the three fields of its form. *)
Module ZoneForm.
Record t : Type := mk {
  zoneName : string;
  zoneRadius : string;
  zoneColor : string
}.
End ZoneForm.

(** [Notification.permission], and the answer to a permission request. *)
Inductive Permission : Type := granted | denied | default.

Definition Permission_eqb (a b : Permission) : bool :=
  match a, b with
  | granted, granted | denied, denied | default, default => true
  | _, _ => false
  end.

Section Forms.
Context {num : Type} `{JSNumber num}.
Local Open Scope js_scope.

(** [handleAddZone] of the zones view, whose [currentPosition] and
    [onAddZone] are those of [App]; [now] is the reading of [Date.now()]
    in [addZone].  The form and the state of the component afterwards. *)
Definition handleAddZone (now : Z) (form : ZoneForm.t) (s : App.t num)
    : ZoneForm.t * App.t num :=
  match trim (ZoneForm.zoneName form), App.currentPosition s with
  | String _ _, Some currentPosition =>
      match parseInt (ZoneForm.zoneRadius form) with
      | None => (form, s)
      | Some radiusMeters =>
          if (radiusMeters <=? 0)%Z then (form, s)
          else
            (ZoneForm.mk "" "100" (nth 0 ZONE_COLORS ""%string),
             addZone now (ZoneForm.zoneName form)
               (Position.latitude currentPosition) (Position.longitude currentPosition)
               (lit (radiusMeters # 1) / lit (1000 # 1)) (ZoneForm.zoneColor form) s)
      end
  | _, _ => (form, s)
  end.

(** [handleToggle] of the settings view, with the request for permission
    answered at once: [supported] is ['Notification' in window],
    [permission] is [Notification.permission] and [answer] what the user
    replies when asked. *)
Definition handleToggle (supported : bool) (permission answer : Permission)
    (s : App.t num) : App.t num :=
  let settings := StoredData.settings (App.storedData s) in
  if negb (NotificationSettings.enabled settings) && supported
     && negb (Permission_eqb permission granted)
  then
    if Permission_eqb answer granted
    then changeSettings (NotificationSettings.mk true (NotificationSettings.hours settings)) s
    else s
  else
    changeSettings
      (NotificationSettings.mk (negb (NotificationSettings.enabled settings))
         (NotificationSettings.hours settings)) s.

(** What the user and the sensor can do through the views. *)
Inductive Gesture : Type :=
| Sensed (i : Input num)
| PressSetHome (pos : Position.t num)
| SubmitZone (now : Z) (form : ZoneForm.t)
| PressDeleteZone (confirmed : bool) (id : string)
| PressDeleteWalk (confirmed : bool) (id : string)
| PressToggle (supported : bool) (permission answer : Permission).

Definition respond (s : App.t num) (g : Gesture) : App.t num :=
  match g with
  | Sensed i => step s i
  | PressSetHome pos => setHome pos s
  | SubmitZone now form => snd (handleAddZone now form s)
  | PressDeleteZone confirmed id => deleteZone confirmed id s
  | PressDeleteWalk confirmed id => deleteWalk confirmed id s
  | PressToggle supported permission answer => handleToggle supported permission answer s
  end.

Definition use (s : App.t num) (gestures : list Gesture) : App.t num :=
  fold_left respond gestures s.

End Forms.

Arguments Gesture : clear implicits.

(** ** The transitions of a sample, one by one

    The rows of the detection table as a relation between the state before
    a sample and the state after it, for use in the proofs about runs. *)

Section Rows.
Context {num : Type} `{JSNumber num}.
Local Open Scope js_scope.

(** The walk after a sample met in the walking state. *)
Definition walkedTo (customZones : list (Zone.t num)) (pos : Position.t num)
    (lastPoint : LatLng.t num) (w : Walk.t num) : Walk.t num :=
  Walk.mk (Walk.id w) (Walk.startTime w) (Walk.endTime w) (Walk.duration w)
    (Walk.distance w +
     getDistance (LatLng.lat lastPoint) (LatLng.lng lastPoint)
       (Position.latitude pos) (Position.longitude pos))
    (Walk.path w ++ [pathPoint pos])
    (visitZones (Position.latitude pos) (Position.longitude pos) customZones
       (Set_new (Walk.zonesVisited w))).

(** The walk as it is handed over to the history. *)
Definition completedAt (endTime : Z) (w : Walk.t num) : Walk.t num :=
  Walk.mk (Walk.id w) (Walk.startTime w) (Some endTime)
    ((endTime - Walk.startTime w) / 1000)%Z
    (Walk.distance w) (Walk.path w) (Walk.zonesVisited w).

Definition counted (c : Confirmation.t num) : Confirmation.t num :=
  Confirmation.mk (Confirmation.points c + 1)%Z (Confirmation.startTime c)
    (Confirmation.startPosition c).

Definition withWalk (w : Walk.t num) (d : StoredData.t num) : StoredData.t num :=
  StoredData.mk (StoredData.homeZone d) (StoredData.customZones d)
    (StoredData.walks d ++ [w]) (StoredData.settings d).

Inductive row (now : Z) (pos : Position.t num) (s : App.t num) : App.t num -> Prop :=
| row_no_home :
    StoredData.homeZone (App.storedData s) = None ->
    row now pos s (setCurrentPosition (Some pos) s)
| row_stay hz :
    StoredData.homeZone (App.storedData s) = Some hz ->
    App.walkStatusRef s = at_home ->
    (distanceFromHome hz pos >? HOME_RADIUS_KM) = false ->
    row now pos s
      (App.mk (Some pos) false None (App.storedData s) at_home (App.confirmationRef s))
| row_depart hz :
    StoredData.homeZone (App.storedData s) = Some hz ->
    App.walkStatusRef s = at_home ->
    beyondHome hz pos ->
    row now pos s
      (App.mk (Some pos) false None (App.storedData s) leaving
         (Confirmation.mk 1 now (Some (pathPoint pos))))
| row_count hz :
    StoredData.homeZone (App.storedData s) = Some hz ->
    App.walkStatusRef s = leaving ->
    beyondHome hz pos ->
    (Confirmation.points (App.confirmationRef s) + 1 <
       WALK_START_CONFIRMATION_COUNT)%Z ->
    row now pos s
      (App.mk (Some pos) false None (App.storedData s) leaving
         (counted (App.confirmationRef s)))
| row_start hz startPosition :
    StoredData.homeZone (App.storedData s) = Some hz ->
    App.walkStatusRef s = leaving ->
    beyondHome hz pos ->
    (WALK_START_CONFIRMATION_COUNT <=
       Confirmation.points (App.confirmationRef s) + 1)%Z ->
    Confirmation.startPosition (App.confirmationRef s) = Some startPosition ->
    row now pos s
      (App.mk (Some pos) true
         (Some (Walk.mk (walk_id (Confirmation.startTime (App.confirmationRef s)))
                  (Confirmation.startTime (App.confirmationRef s)) None 0 (lit 0)
                  [startPosition] []))
         (App.storedData s) walking (counted (App.confirmationRef s)))
| row_back hz :
    StoredData.homeZone (App.storedData s) = Some hz ->
    App.walkStatusRef s = leaving ->
    (distanceFromHome hz pos >? HOME_RADIUS_KM) = false ->
    row now pos s
      (App.mk (Some pos) false None (App.storedData s) at_home (App.confirmationRef s))
| row_walk hz w lastPoint :
    StoredData.homeZone (App.storedData s) = Some hz ->
    App.walkStatusRef s = walking ->
    App.currentWalk s = Some w ->
    nth_error (Walk.path w) (List.length (Walk.path w) - 1) = Some lastPoint ->
    (distanceFromHome hz pos <=? HOME_RADIUS_KM) = false ->
    row now pos s
      (App.mk (Some pos) true
         (Some (walkedTo (StoredData.customZones (App.storedData s)) pos lastPoint w))
         (App.storedData s) walking (App.confirmationRef s))
| row_arrive hz w lastPoint :
    StoredData.homeZone (App.storedData s) = Some hz ->
    App.walkStatusRef s = walking ->
    App.currentWalk s = Some w ->
    nth_error (Walk.path w) (List.length (Walk.path w) - 1) = Some lastPoint ->
    withinHome hz pos ->
    row now pos s
      (App.mk (Some pos) true
         (Some (walkedTo (StoredData.customZones (App.storedData s)) pos lastPoint w))
         (App.storedData s) returning (Confirmation.mk 1 now None))
| row_wait hz w :
    StoredData.homeZone (App.storedData s) = Some hz ->
    App.walkStatusRef s = returning ->
    App.currentWalk s = Some w ->
    withinHome hz pos ->
    (Confirmation.points (App.confirmationRef s) + 1 < WALK_END_CONFIRMATION_COUNT)%Z ->
    row now pos s
      (App.mk (Some pos) true (Some w) (App.storedData s) returning
         (counted (App.confirmationRef s)))
| row_complete hz w :
    StoredData.homeZone (App.storedData s) = Some hz ->
    App.walkStatusRef s = returning ->
    App.currentWalk s = Some w ->
    withinHome hz pos ->
    (WALK_END_CONFIRMATION_COUNT <= Confirmation.points (App.confirmationRef s) + 1)%Z ->
    row now pos s
      (App.mk (Some pos) false None
         (withWalk (completedAt (Confirmation.startTime (App.confirmationRef s)) w)
            (App.storedData s))
         at_home (counted (App.confirmationRef s)))
| row_resume hz w :
    StoredData.homeZone (App.storedData s) = Some hz ->
    App.walkStatusRef s = returning ->
    App.currentWalk s = Some w ->
    (distanceFromHome hz pos <=? HOME_RADIUS_KM) = false ->
    row now pos s
      (App.mk (Some pos) true (Some w) (App.storedData s) walking (App.confirmationRef s)).

(** The outcomes of a manual start. *)
Inductive manualRow (now : Z) (s : App.t num) : App.t num -> Prop :=
| manual_ignored :
    App.currentPosition s = None \/ App.isWalking s = true ->
    manualRow now s s
| manual_started pos :
    App.currentPosition s = Some pos ->
    App.isWalking s = false ->
    App.currentWalk s = None ->
    manualRow now s
      (App.mk (Some pos) true
         (Some (Walk.mk (walk_id now) now None 0 (lit 0) [pathPoint pos] []))
         (App.storedData s) walking (App.confirmationRef s)).

(** *** Bookkeeping a run maintains *)

(** A walk whose record is in order: named after its start, ended, and
    lasting the whole seconds between start and end. *)
Definition recorded (w : Walk.t num) : Prop :=
  Walk.id w = walk_id (Walk.startTime w) /\
  exists endTime,
    Walk.endTime w = Some endTime /\
    Walk.duration w = ((endTime - Walk.startTime w) / 1000)%Z.

Definition ledger (data : StoredData.t num) (s : App.t num) : Prop :=
  StoredData.homeZone (App.storedData s) = StoredData.homeZone data /\
  StoredData.customZones (App.storedData s) = StoredData.customZones data /\
  StoredData.settings (App.storedData s) = StoredData.settings data /\
  (App.walkStatusRef s = leaving ->
   (1 <= Confirmation.points (App.confirmationRef s) < WALK_START_CONFIRMATION_COUNT)%Z) /\
  (App.walkStatusRef s = returning ->
   (1 <= Confirmation.points (App.confirmationRef s) < WALK_END_CONFIRMATION_COUNT)%Z) /\
  (forall w, App.currentWalk s = Some w ->
     Walk.id w = walk_id (Walk.startTime w) /\ Walk.endTime w = None /\
     Walk.duration w = 0%Z) /\
  exists completed,
    StoredData.walks (App.storedData s) = StoredData.walks data ++ completed /\
    Forall recorded completed.

(** With [T] the latest reading of the clock: nothing the engine remembers
    is later than [T], a return began after the walk did, and every walk the
    run completed ended no earlier than it started. *)
Definition clocked (data : StoredData.t num) (T : Z) (s : App.t num) : Prop :=
  (App.walkStatusRef s = leaving \/ App.walkStatusRef s = returning ->
   (Confirmation.startTime (App.confirmationRef s) <= T)%Z) /\
  (forall w, App.currentWalk s = Some w ->
     (Walk.startTime w <= T)%Z /\
     (App.walkStatusRef s = returning ->
      (Walk.startTime w <= Confirmation.startTime (App.confirmationRef s))%Z)) /\
  exists completed,
    StoredData.walks (App.storedData s) = StoredData.walks data ++ completed /\
    Forall (fun w => exists endTime,
                Walk.endTime w = Some endTime /\
                (Walk.startTime w <= endTime)%Z /\ (0 <= Walk.duration w)%Z)
      completed.

(** Every zone name on the walk in progress belongs to a named zone that
    contains one of the samples the walk has seen. *)
Definition visitedOnly (data : StoredData.t num) (sg : App.t num * Seen) : Prop :=
  match App.currentWalk (fst sg), snd sg with
  | Some w, Some (_, samples) =>
      forall zoneName, In zoneName (Walk.zonesVisited w) ->
        exists z p, In z (StoredData.customZones data) /\ Zone.name z = zoneName /\
                    In p samples /\ withinZone z p
  | _, _ => True
  end.

End Rows.

(** ** The haversine term over the real numbers

    The quantity [a] of [getDistance], under the two square roots. *)

Module Haversine.
Import RealNumber.
Local Open Scope R_scope.

Definition a (lat1 lon1 lat2 lon2 : R) : R :=
  sin ((lat2 - lat1) * (PI / 180) / 2) * sin ((lat2 - lat1) * (PI / 180) / 2) +
  cos (lat1 * (PI / 180)) * cos (lat2 * (PI / 180)) *
  sin ((lon2 - lon1) * (PI / 180) / 2) * sin ((lon2 - lon1) * (PI / 180) / 2).

End Haversine.

(** A named zone as the data model wants it: a radius above zero and a
    name that is not blank. *)
Module SoundZone.
Import RealNumber.
Local Open Scope R_scope.

Definition holds (z : Zone.t R) : Prop :=
  0 < Zone.radius z /\ trim (Zone.name z) <> EmptyString.

End SoundZone.

(** ** A concrete installation

    Home at the origin as [setHome] stores it, one named zone on the far side
    of the globe, and the states and runs the properties below are exercised
    on, over the real numbers. *)

Module Example.
Import RealNumber.
Local Open Scope R_scope.

Definition home : Zone.t R := Zone.mk "home" "Home" 0 0 HOME_RADIUS_KM "#A8A5A3".
Definition park : Zone.t R := Zone.mk "zone_7" "Park" 0 180 1 "#F87171".

Definition data : StoredData.t R :=
  StoredData.mk (Some home) [park] [] (NotificationSettings.mk false 8).

Definition nearPos : Position.t R := Position.mk 0 0.
Definition farPos : Position.t R := Position.mk 0 180.

(** A walk started by hand at the door at time 5, and the states of the
    engine with it under way. *)
Definition walk0 : Walk.t R := Walk.mk (walk_id 5) 5 None 0 (lit 0) [pathPoint nearPos] [].

Definition walkingState : App.t R :=
  App.mk (Some nearPos) true (Some walk0) data walking (Confirmation.mk 0 0 None).

Definition returningState : App.t R :=
  App.mk (Some nearPos) true (Some walk0) data returning (Confirmation.mk 1 4000 None).

Definition leavingState : App.t R :=
  App.mk (Some farPos) false None data leaving
    (Confirmation.mk 1 1 (Some (pathPoint farPos))).

(** Four samples on the far side, each a second after the other: the third
    starts a walk, the fourth is its first sample. *)
Definition outing : list (Input R) :=
  [Sample 1000 farPos; Sample 2000 farPos; Sample 3000 farPos; Sample 4000 farPos].

Definition outingWalk : Walk.t R :=
  Walk.mk (walk_id 1000) 1000 None 0 (lit 0 + getDistance 0 180 0 180)
    [pathPoint farPos; pathPoint farPos] ["Park"%string].

Definition outingState : App.t R :=
  App.mk (Some farPos) true (Some outingWalk) data walking
    (Confirmation.mk 3 1000 (Some (pathPoint farPos))).

End Example.

(** ** A household

    More of the example installation: a history, two zones of one name, a
    session storage and some runs, for the properties of the views. *)

Module Household.
Import RealNumber Example.
Local Open Scope R_scope.

Definition unset : StoredData.t R :=
  StoredData.mk None [] [] (NotificationSettings.mk false 8).

Definition atTheDoor : App.t R :=
  App.mk (Some nearPos) false None data at_home (Confirmation.mk 0 0 None).

Definition morning : Walk.t R :=
  Walk.mk (walk_id 5) 5 (Some 5000%Z) 4 0 [pathPoint nearPos] [].
Definition noon : Walk.t R :=
  Walk.mk (walk_id 7) 7 (Some 9000%Z) 8 0 [pathPoint nearPos] ["Park"%string].
Definition evening : Walk.t R :=
  Walk.mk (walk_id 8) 8 (Some 9000%Z) 8 0 [pathPoint nearPos] [].

Definition history : list (Walk.t R) := [morning; noon; evening].

Definition withHistory : App.t R :=
  App.mk None false None
    (StoredData.mk (Some home) [park] history (NotificationSettings.mk true 8))
    at_home (Confirmation.mk 0 0 None).

Definition oldPark : Zone.t R := Zone.mk "zone_3" "Park" 0 90 1 "#60A5FA".
Definition twoParks : list (Zone.t R) := [oldPark; park].

Definition departure : list (Input R) := [Sample 1000 farPos; Sample 2000 farPos].

Definition thereAndBack : list (Input R) :=
  outing ++ [Sample 5000 nearPos; Sample 6000 nearPos].

Definition reminded : Store := [("notified_walk_7"%string, "true"%string)].

Definition evenings : list (@Firing R) :=
  [(40000000%Z, NotificationSettings.mk true 8, false, Some noon);
   (40300000%Z, NotificationSettings.mk true 8, false, Some noon)].

Definition afternoon : list (Gesture R) :=
  [Sensed (Sample 1000 nearPos);
   SubmitZone 8 (ZoneForm.mk "Pond" "250" "#34D399");
   SubmitZone 9 (ZoneForm.mk "   " "250" "#34D399");
   SubmitZone 10 (ZoneForm.mk "Ditch" "-3" "#34D399");
   PressDeleteZone true "zone_7"].

End Household.

(** ** Geodesy over the real numbers *)

Module RealGeodesy.
Import RealNumber.
Local Open Scope R_scope.

Lemma gt_bool_true (x y : R) : x > y -> gt_bool x y = true.
Proof. unfold gt_bool; destruct (Rgt_dec x y); intros; [reflexivity | lra]. Qed.

Lemma le_bool_true (x y : R) : x <= y -> le_bool x y = true.
Proof. unfold le_bool; destruct (Rle_dec x y); intros; [reflexivity | lra]. Qed.

Lemma lit_Z (z : Z) : Q2R (z # 1) = IZR z.
Proof. unfold Q2R; simpl; lra. Qed.

Lemma atan2_0_1 : atan2 0 1 = 0.
Proof.
  unfold atan2. destruct (Rlt_dec 0 1); [| lra].
  replace (0 / 1) with 0 by lra. apply atan_0.
Qed.

Lemma atan2_1_0 : atan2 1 0 = PI / 2.
Proof.
  unfold atan2.
  destruct (Rlt_dec 0 0); [lra |].
  destruct (Rlt_dec 0 1); [reflexivity | lra].
Qed.

(** The source formula, with the interface unfolded. *)
Lemma getDistance_eq (lat1 lon1 lat2 lon2 : R) :
  getDistance lat1 lon1 lat2 lon2 =
  6371 * (2 * atan2
    (sqrt (sin ((lat2 - lat1) * (PI / 180) / 2) * sin ((lat2 - lat1) * (PI / 180) / 2) +
           cos (lat1 * (PI / 180)) * cos (lat2 * (PI / 180)) *
           sin ((lon2 - lon1) * (PI / 180) / 2) * sin ((lon2 - lon1) * (PI / 180) / 2)))
    (sqrt (1 - (sin ((lat2 - lat1) * (PI / 180) / 2) * sin ((lat2 - lat1) * (PI / 180) / 2) +
           cos (lat1 * (PI / 180)) * cos (lat2 * (PI / 180)) *
           sin ((lon2 - lon1) * (PI / 180) / 2) * sin ((lon2 - lon1) * (PI / 180) / 2))))).
Proof.
  unfold getDistance; cbn [lit num_add num_sub num_mul num_div Math_PI Math_sin Math_cos
    Math_sqrt Math_atan2 number].
  rewrite !lit_Z. reflexivity.
Qed.



Lemma getDistance_self (lat lon : R) : getDistance lat lon lat lon = 0.
Proof.
  rewrite getDistance_eq.
  replace ((lat - lat) * (PI / 180) / 2) with 0 by lra.
  replace ((lon - lon) * (PI / 180) / 2) with 0 by lra.
  rewrite sin_0.
  replace (0 * 0 + cos (lat * (PI / 180)) * cos (lat * (PI / 180)) * 0 * 0) with 0 by ring.
  replace (1 - 0) with 1 by lra.
  rewrite sqrt_0, sqrt_1, atan2_0_1. ring.
Qed.
(** Two points on opposite sides of the equator circle are half a
    circumference apart. *)
Lemma getDistance_antipode : getDistance 0 180 0 0 = 6371 * PI.
Proof.
  rewrite getDistance_eq.
  replace ((0 - 0) * (PI / 180) / 2) with 0 by lra.
  replace (0 * (PI / 180)) with 0 by lra.
  replace ((0 - 180) * (PI / 180) / 2) with (- (PI / 2)) by lra.
  rewrite sin_0, cos_0, sin_neg, sin_PI2.
  replace (0 * 0 + 1 * 1 * - (1) * - (1)) with 1 by ring.
  replace (1 - 1) with 0 by lra.
  rewrite sqrt_0, sqrt_1, atan2_1_0. lra.
Qed.


Lemma HOME_RADIUS_KM_eq : @HOME_RADIUS_KM R _ = 5 / 100.
Proof. unfold HOME_RADIUS_KM. cbn [lit number]. unfold Q2R. simpl. lra. Qed.

Lemma far_beyond : beyondHome Example.home Example.farPos.
Proof.
  unfold beyondHome, distanceFromHome. cbn [Example.farPos Example.home
    Position.latitude Position.longitude Zone.latitude Zone.longitude gtb number].
  apply gt_bool_true. rewrite getDistance_antipode, HOME_RADIUS_KM_eq.
  pose proof PI2_1. lra.
Qed.

Lemma near_within : withinHome Example.home Example.nearPos.
Proof.
  unfold withinHome, distanceFromHome. cbn [Example.nearPos Example.home
    Position.latitude Position.longitude Zone.latitude Zone.longitude leb number].
  apply le_bool_true. rewrite getDistance_self, HOME_RADIUS_KM_eq. lra.
Qed.

Lemma far_in_park : withinZone Example.park (pathPoint Example.farPos).
Proof.
  unfold withinZone. cbn [Example.farPos Example.park pathPoint LatLng.lat LatLng.lng
    Position.latitude Position.longitude Zone.latitude Zone.longitude Zone.radius leb number].
  apply le_bool_true. rewrite getDistance_self. lra.
Qed.

End RealGeodesy.

(** ** Sets of zone names *)

Section Sets.

Lemma Set_has_In (x : string) (l : list string) : Set_has x l = true <-> In x l.
Proof.
  unfold Set_has. rewrite existsb_exists. split.
  - intros [y [Hy Heq]]. apply String.eqb_eq in Heq. now subst.
  - intros Hin. exists x. split; [assumption | apply String.eqb_refl].
Qed.

Lemma Set_add_In (x y : string) (l : list string) :
  In y (Set_add x l) <-> y = x \/ In y l.
Proof.
  unfold Set_add. destruct (Set_has x l) eqn:E.
  - apply Set_has_In in E. split; [now right | intros [-> | Hy]; assumption].
  - rewrite in_app_iff. cbn. split.
    + intros [Hy | [-> | []]]; [now right | now left].
    + intros [-> | Hy]; [right; now left | now left].
Qed.

Lemma Set_add_NoDup (x : string) (l : list string) : NoDup l -> NoDup (Set_add x l).
Proof.
  intros Hl. unfold Set_add. destruct (Set_has x l) eqn:E; [assumption |].
  assert (Hx : ~ In x l) by (rewrite <- Set_has_In, E; discriminate).
  clear E. induction Hl as [| a l Ha Hl IH]; cbn.
  - constructor; [intros [] | constructor].
  - constructor.
    + rewrite in_app_iff. cbn. intros [Hin | [-> | []]]; [now apply Ha | apply Hx; now left].
    + apply IH. intros Hin. apply Hx. now right.
Qed.

Lemma Set_new_acc_In (l acc : list string) (y : string) :
  In y (fold_left (fun a x => Set_add x a) l acc) <-> In y acc \/ In y l.
Proof.
  revert acc. induction l as [| x l IH]; intros acc; cbn.
  - tauto.
  - rewrite IH, Set_add_In. split; intros; intuition (subst; auto).
Qed.

Lemma Set_new_acc_NoDup (l acc : list string) :
  NoDup acc -> NoDup (fold_left (fun a x => Set_add x a) l acc).
Proof.
  revert acc. induction l as [| x l IH]; intros acc Hacc; cbn; [assumption |].
  apply IH. now apply Set_add_NoDup.
Qed.

Lemma Set_new_In (l : list string) (y : string) : In y (Set_new l) <-> In y l.
Proof. unfold Set_new. rewrite Set_new_acc_In. cbn. tauto. Qed.

Lemma Set_new_NoDup (l : list string) : NoDup (Set_new l).
Proof. apply Set_new_acc_NoDup. constructor. Qed.

End Sets.

Section ZoneLoop.
Context {num : Type} `{JSNumber num}.

Lemma visitZones_NoDup (latitude longitude : num) (zs : list (Zone.t num)) (v : list string) :
  NoDup v -> NoDup (visitZones latitude longitude zs v).
Proof.
  unfold visitZones. revert v. induction zs as [| z zs IH]; intros v Hv; cbn; [assumption |].
  apply IH. destruct (leb _ _); [now apply Set_add_NoDup | assumption].
Qed.

Lemma visitZones_keeps (latitude longitude : num) (zs : list (Zone.t num)) (v : list string)
    (x : string) :
  In x v -> In x (visitZones latitude longitude zs v).
Proof.
  unfold visitZones. revert v. induction zs as [| z zs IH]; intros v Hv; cbn; [assumption |].
  apply IH. destruct (leb _ _); [apply Set_add_In; now right | assumption].
Qed.

Lemma visitZones_adds (latitude longitude : num) (zs : list (Zone.t num)) (v : list string)
    (z : Zone.t num) :
  In z zs ->
  withinZone z (LatLng.mk latitude longitude) ->
  In (Zone.name z) (visitZones latitude longitude zs v).
Proof.
  unfold withinZone. cbn. revert v. induction zs as [| z' zs IH]; intros v Hin Hz; [destruct Hin |].
  destruct Hin as [-> | Hin].
  - unfold visitZones. cbn. rewrite Hz.
    apply (visitZones_keeps latitude longitude zs). apply Set_add_In. now left.
  - unfold visitZones. cbn. now apply IH.
Qed.

End ZoneLoop.

(** ** Path length *)

Section PathLength.
Context {num : Type} `{JSNumber num}.

Lemma legs_snoc (l : list (LatLng.t num)) (lastPoint q : LatLng.t num) :
  nth_error l (List.length l - 1) = Some lastPoint ->
  legs (l ++ [q]) =
  legs l ++ [getDistance (LatLng.lat lastPoint) (LatLng.lng lastPoint)
               (LatLng.lat q) (LatLng.lng q)].
Proof.
  induction l as [| a l IH]; intros Hlast; [discriminate |].
  destruct l as [| b l].
  - cbn in Hlast. injection Hlast as <-. reflexivity.
  - change (legs ((a :: b :: l) ++ [q])) with
      (getDistance (LatLng.lat a) (LatLng.lng a) (LatLng.lat b) (LatLng.lng b)
         :: legs ((b :: l) ++ [q])).
    rewrite IH.
    + reflexivity.
    + cbn in Hlast |- *. now rewrite Nat.sub_0_r in *.
Qed.

Lemma pathLength_snoc (l : list (LatLng.t num)) (lastPoint q : LatLng.t num) :
  nth_error l (List.length l - 1) = Some lastPoint ->
  pathLength (l ++ [q]) =
  num_add (pathLength l)
    (getDistance (LatLng.lat lastPoint) (LatLng.lng lastPoint) (LatLng.lat q) (LatLng.lng q)).
Proof.
  intros Hlast. unfold pathLength. rewrite (legs_snoc _ _ Hlast), fold_left_app. reflexivity.
Qed.

Lemma last_point_exists (l : list (LatLng.t num)) :
  l <> [] -> exists p, nth_error l (List.length l - 1) = Some p.
Proof.
  intros Hl. destruct (nth_error l (List.length l - 1)) eqn:E; [eauto |].
  apply nth_error_None in E. destruct l; [contradiction | cbn in E; lia].
Qed.

End PathLength.

(** ** The branches of [processPositionUpdate] *)

Unset Implicit Arguments.

Section Branches.
Context {num : Type} `{JSNumber num}.
Local Open Scope js_scope.

Variables (now : Z) (pos : Position.t num) (s : App.t num) (homeZone : Zone.t num).
Hypothesis Hhome : StoredData.homeZone (App.storedData s) = Some homeZone.

Lemma update_without_home (s' : App.t num) :
  StoredData.homeZone (App.storedData s') = None ->
  processPositionUpdate now pos s' = setCurrentPosition (Some pos) s'.
Proof. intros Hnone. unfold processPositionUpdate. cbn. now rewrite Hnone. Qed.

Lemma update_at_home_beyond :
  App.walkStatusRef s = at_home ->
  beyondHome homeZone pos ->
  processPositionUpdate now pos s =
  setConfirmation (Confirmation.mk 1 now (Some (pathPoint pos)))
    (setWalkStatus leaving (setCurrentPosition (Some pos) s)).
Proof.
  intros Hst Hd. unfold processPositionUpdate. cbn. rewrite Hhome, Hst. cbn.
  unfold beyondHome, distanceFromHome in Hd. now rewrite Hd.
Qed.

Lemma update_at_home_stay :
  App.walkStatusRef s = at_home ->
  (distanceFromHome homeZone pos >? HOME_RADIUS_KM) = false ->
  processPositionUpdate now pos s = setCurrentPosition (Some pos) s.
Proof.
  intros Hst Hd. unfold processPositionUpdate. cbn. rewrite Hhome, Hst. cbn.
  unfold distanceFromHome in Hd. now rewrite Hd.
Qed.

Lemma update_leaving_beyond :
  App.walkStatusRef s = leaving ->
  beyondHome homeZone pos ->
  processPositionUpdate now pos s =
  let conf := App.confirmationRef s in
  let conf' := Confirmation.mk (Confirmation.points conf + 1)%Z
                 (Confirmation.startTime conf) (Confirmation.startPosition conf) in
  let s1 := setConfirmation conf' (setCurrentPosition (Some pos) s) in
  if (Confirmation.points conf + 1 >=? WALK_START_CONFIRMATION_COUNT)%Z then
    match Confirmation.startPosition conf with
    | Some startPosition => startWalk (Confirmation.startTime conf) startPosition s1
    | None => s1
    end
  else s1.
Proof.
  intros Hst Hd. unfold processPositionUpdate. cbn. rewrite Hhome, Hst. cbn.
  unfold beyondHome, distanceFromHome in Hd. now rewrite Hd.
Qed.

Lemma update_leaving_back :
  App.walkStatusRef s = leaving ->
  (distanceFromHome homeZone pos >? HOME_RADIUS_KM) = false ->
  processPositionUpdate now pos s = setWalkStatus at_home (setCurrentPosition (Some pos) s).
Proof.
  intros Hst Hd. unfold processPositionUpdate. cbn. rewrite Hhome, Hst. cbn.
  unfold distanceFromHome in Hd. now rewrite Hd.
Qed.

Lemma update_walking (w : Walk.t num) (lastPoint : LatLng.t num) :
  App.walkStatusRef s = walking ->
  App.currentWalk s = Some w ->
  nth_error (Walk.path w) (List.length (Walk.path w) - 1) = Some lastPoint ->
  processPositionUpdate now pos s =
  let w' :=
    Walk.mk (Walk.id w) (Walk.startTime w) (Walk.endTime w) (Walk.duration w)
      (Walk.distance w +
       getDistance (LatLng.lat lastPoint) (LatLng.lng lastPoint)
         (Position.latitude pos) (Position.longitude pos))
      (Walk.path w ++ [pathPoint pos])
      (visitZones (Position.latitude pos) (Position.longitude pos)
         (StoredData.customZones (App.storedData s)) (Set_new (Walk.zonesVisited w))) in
  let s1 := setCurrentWalk (Some w') (setCurrentPosition (Some pos) s) in
  if distanceFromHome homeZone pos <=? HOME_RADIUS_KM then
    setConfirmation (Confirmation.mk 1 now None) (setWalkStatus returning s1)
  else s1.
Proof.
  intros Hst Hw Hlast. unfold processPositionUpdate. cbn. rewrite Hhome, Hst, Hw. cbn.
  rewrite Hlast. reflexivity.
Qed.

Lemma update_returning_within (w : Walk.t num) :
  App.walkStatusRef s = returning ->
  App.currentWalk s = Some w ->
  withinHome homeZone pos ->
  processPositionUpdate now pos s =
  let conf := App.confirmationRef s in
  let conf' := Confirmation.mk (Confirmation.points conf + 1)%Z
                 (Confirmation.startTime conf) (Confirmation.startPosition conf) in
  let s1 := setConfirmation conf' (setCurrentPosition (Some pos) s) in
  if (Confirmation.points conf + 1 >=? WALK_END_CONFIRMATION_COUNT)%Z then
    let endTime := Confirmation.startTime conf in
    let completedWalk :=
      Walk.mk (Walk.id w) (Walk.startTime w) (Some endTime)
        ((endTime - Walk.startTime w) / 1000)%Z
        (Walk.distance w) (Walk.path w) (Walk.zonesVisited w) in
    let storedData := App.storedData s in
    setWalkStatus at_home
      (setIsWalking false
         (setCurrentWalk None
            (saveData
               (StoredData.mk (StoredData.homeZone storedData)
                  (StoredData.customZones storedData)
                  (StoredData.walks storedData ++ [completedWalk])
                  (StoredData.settings storedData)) s1)))
  else s1.
Proof.
  intros Hst Hw Hd. unfold processPositionUpdate. cbn. rewrite Hhome, Hst, Hw. cbn.
  unfold withinHome, distanceFromHome in Hd. rewrite Hd. reflexivity.
Qed.

Lemma update_returning_away :
  App.walkStatusRef s = returning ->
  (distanceFromHome homeZone pos <=? HOME_RADIUS_KM) = false ->
  processPositionUpdate now pos s = setWalkStatus walking (setCurrentPosition (Some pos) s).
Proof.
  intros Hst Hd. unfold processPositionUpdate. cbn. rewrite Hhome, Hst. cbn.
  unfold distanceFromHome in Hd. rewrite Hd. reflexivity.
Qed.

End Branches.

Set Implicit Arguments.

(** ** The invariant of a run *)

Section Invariant.
Context {num : Type} `{JSNumber num}.
Local Open Scope js_scope.

Lemma initial_consistent (data : StoredData.t num) : consistent (initial data).
Proof.
  unfold consistent, initial. cbn. repeat split; intros; discriminate.
Qed.

Lemma startWalk_idle (t : Z) (p : LatLng.t num) (s : App.t num) :
  App.isWalking s = false ->
  startWalk t p s =
  App.mk (App.currentPosition s) true
    (Some (Walk.mk (walk_id t) t None 0 (lit 0) [p] []))
    (App.storedData s) walking (App.confirmationRef s).
Proof. intros Hw. unfold startWalk. now rewrite Hw. Qed.

Lemma startWalk_busy (t : Z) (p : LatLng.t num) (s : App.t num) :
  App.isWalking s = true -> startWalk t p s = s.
Proof. intros Hw. unfold startWalk. now rewrite Hw. Qed.

Lemma status_cases (st : WalkStatus) :
  st = at_home \/ st = leaving \/ st = walking \/ st = returning.
Proof. destruct st; auto. Qed.

Lemma bool_cases (b : bool) : b = true \/ b = false.
Proof. destruct b; auto. Qed.

Lemma invariant_initial (data : StoredData.t num) : invariant data (initial data, None).
Proof.
  unfold invariant. cbn. split; [apply initial_consistent |].
  split; [reflexivity |]. split; [| exact I].
  exists []. split; [now rewrite app_nil_r | constructor].
Qed.

Lemma invariant_manual (data : StoredData.t num) (sg : App.t num * Seen) (now : Z) :
  invariant data sg -> invariant data (stepSeen sg (ManualStart now)).
Proof.
  destruct sg as [s g]. unfold invariant, stepSeen, observe. cbn [fst snd step].
  intros (Hc & Hz & Hdone & Hw).
  unfold handleManualStart, candidateStart.
  destruct (App.currentPosition s) as [cp |] eqn:Hcp.
  - destruct (App.isWalking s) eqn:Hiw.
    + rewrite startWalk_busy by assumption. rewrite Hiw. cbn.
      repeat split; try assumption; try apply Hc.
    + rewrite startWalk_idle by assumption. cbn.
      destruct Hc as (Hc1 & Hc2 & Hc3 & Hc4).
      split; [| split; [assumption | split; [assumption |]]].
      * unfold consistent. cbn. repeat split; intros; try discriminate.
        injection H0 as <-. cbn. discriminate.
      * unfold tracked. cbn. repeat split; try constructor.
        intros z p _ [].
  - destruct (App.isWalking s) eqn:Hiw; cbn.
    + repeat split; try assumption; try apply Hc.
    + split; [assumption | split; [assumption | split; [assumption |]]].
      destruct Hc as (_ & Hc2 & _). rewrite Hiw in Hc2.
      destruct (App.currentWalk s); [discriminate | exact I].
Qed.

Lemma tracked_walking (zones : list (Zone.t num)) (w : Walk.t num) (seed lastPoint : LatLng.t num)
    (samples : list (LatLng.t num)) (pos : Position.t num) :
  tracked zones w seed samples ->
  nth_error (Walk.path w) (List.length (Walk.path w) - 1) = Some lastPoint ->
  tracked zones
    (Walk.mk (Walk.id w) (Walk.startTime w) (Walk.endTime w) (Walk.duration w)
       (Walk.distance w +
        getDistance (LatLng.lat lastPoint) (LatLng.lng lastPoint)
          (Position.latitude pos) (Position.longitude pos))
       (Walk.path w ++ [pathPoint pos])
       (visitZones (Position.latitude pos) (Position.longitude pos) zones
          (Set_new (Walk.zonesVisited w))))
    seed (samples ++ [pathPoint pos]).
Proof.
  intros (Hpath & Hend & Hdist & Hnd & Hzones) Hlast. unfold tracked. cbn.
  split; [now rewrite Hpath |]. split; [assumption |].
  split; [rewrite (pathLength_snoc _ _ Hlast), Hdist; reflexivity |].
  split; [apply visitZones_NoDup, Set_new_NoDup |].
  intros z p Hz Hp Hin. apply in_app_iff in Hp. destruct Hp as [Hp | [<- | []]].
  - apply visitZones_keeps, Set_new_In. now apply (Hzones z p).
  - now apply visitZones_adds.
Qed.

Lemma invariant_sample (data : StoredData.t num) (sg : App.t num * Seen) (now : Z)
    (pos : Position.t num) :
  invariant data sg -> invariant data (stepSeen sg (Sample now pos)).
Proof.
  destruct sg as [s g]. unfold invariant, stepSeen, observe. cbn [fst snd step candidateStart].
  intros ((Hc1 & Hc2 & Hc3 & Hc4) & Hz & Hdone & Hw).
  destruct (StoredData.homeZone (App.storedData s)) as [hz |] eqn:Hhome.
  2:{ rewrite (update_without_home now pos s Hhome). cbn. rewrite andb_false_r.
      split; [repeat split; assumption |]. split; [assumption |]. split; [assumption |].
      destruct (App.isWalking s) eqn:Hiw; cbn.
      - destruct (App.currentWalk s), g as [[seed samples] |]; assumption.
      - destruct (App.currentWalk s); [discriminate | exact I]. }
  rewrite andb_true_r.
  destruct (status_cases (App.walkStatusRef s)) as [Hst | [Hst | [Hst | Hst]]];
    rewrite Hst in Hc1; cbn in Hc1; rewrite Hc1 in Hc2.
  - (* at_home *)
    destruct (App.currentWalk s) eqn:Hcw; [discriminate |].
    destruct (bool_cases (distanceFromHome hz pos >? HOME_RADIUS_KM)) as [Hd | Hd].
    + rewrite (update_at_home_beyond now pos s hz Hhome Hst Hd).
      cbn; rewrite ?Hc1, ?Hcw; cbn.
      split; [| auto]. unfold consistent. cbn. rewrite ?Hc1, ?Hcw.
      repeat split; intros; discriminate.
    + rewrite (update_at_home_stay now pos s hz Hhome Hst Hd).
      cbn; rewrite ?Hc1, ?Hcw; cbn.
      split; [| auto]. unfold consistent. cbn. rewrite ?Hc1, ?Hcw, ?Hst.
      repeat split; intros; discriminate.
  - (* leaving *)
    destruct (App.currentWalk s) eqn:Hcw; [discriminate |].
    destruct (bool_cases (distanceFromHome hz pos >? HOME_RADIUS_KM)) as [Hd | Hd].
    + rewrite (update_leaving_beyond now pos s hz Hhome Hst Hd). cbn zeta.
      destruct (Confirmation.startPosition (App.confirmationRef s)) as [p |] eqn:Hp;
        [| now elim (Hc3 Hst)].
      destruct (Confirmation.points (App.confirmationRef s) + 1 >=? _)%Z.
      * rewrite startWalk_idle by exact Hc1.
        cbn; rewrite ?Hc1, ?Hcw; cbn.
        split; [| split; [assumption | split; [assumption |]]].
        -- unfold consistent. cbn. repeat split; intros; try discriminate.
           injection H0 as <-. cbn. discriminate.
        -- unfold tracked. cbn. repeat split; try constructor. intros z q _ [].
      * cbn; rewrite ?Hc1, ?Hcw; cbn.
        split; [| auto]. unfold consistent. cbn. rewrite ?Hc1, ?Hcw, ?Hst, ?Hp.
        repeat split; intros; discriminate.
    + rewrite (update_leaving_back now pos s hz Hhome Hst Hd).
      cbn; rewrite ?Hc1, ?Hcw; cbn.
      split; [| auto]. unfold consistent. cbn. rewrite ?Hc1, ?Hcw.
      repeat split; intros; discriminate.
  - (* walking *)
    destruct (App.currentWalk s) as [w |] eqn:Hcw; [| discriminate].
    destruct g as [[seed samples] |]; [| contradiction].
    destruct (last_point_exists (Hc4 w eq_refl)) as [lastPoint Hlast].
    rewrite (update_walking now pos s hz Hhome w lastPoint Hst Hcw Hlast). cbn zeta.
    rewrite Hz.
    pose proof (tracked_walking pos Hw Hlast) as Hw'.
    assert (Hne : Walk.path w ++ [pathPoint pos] <> [])
      by (intros E; apply app_eq_nil in E; destruct E; discriminate).
    destruct (distanceFromHome hz pos <=? HOME_RADIUS_KM);
      cbn; rewrite ?Hc1, ?Hst; cbn.
    + split; [| auto]. unfold consistent. cbn. rewrite ?Hc1.
      repeat split; intros; try discriminate. injection H0 as <-. exact Hne.
    + split; [| auto]. unfold consistent. cbn. rewrite ?Hc1, ?Hst.
      repeat split; intros; try discriminate. injection H0 as <-. exact Hne.
  - (* returning *)
    destruct (App.currentWalk s) as [w |] eqn:Hcw; [| discriminate].
    destruct g as [[seed samples] |]; [| contradiction].
    destruct (bool_cases (distanceFromHome hz pos <=? HOME_RADIUS_KM)) as [Hd | Hd].
    + rewrite (update_returning_within now pos s hz Hhome w Hst Hcw Hd). cbn zeta.
      destruct (Confirmation.points (App.confirmationRef s) + 1 >=? _)%Z;
        cbn; rewrite ?Hc1, ?Hcw, ?Hst; cbn.
      * split; [| split; [assumption | split; [| exact I]]].
        -- unfold consistent. cbn. repeat split; intros; discriminate.
        -- destruct Hdone as [completed [Hwalks Hfin]].
           eexists (completed ++ [_]). rewrite Hwalks, <- app_assoc. split; [reflexivity |].
           apply Forall_app. split; [assumption |]. constructor; [| constructor].
           destruct Hw as (Hpath & Hend & Hdist & Hnd & Hzones).
           unfold finished. cbn.
           split; [discriminate | split; [assumption | split; [assumption |]]].
           intros z p Hin Hp Hwz. rewrite Hpath in Hp. now apply (Hzones z p).
      * split; [| auto]. unfold consistent. cbn. rewrite ?Hc1, ?Hcw, ?Hst.
        repeat split; intros; try discriminate. apply Hc4. assumption.
    + rewrite (update_returning_away now pos s hz Hhome Hst Hd).
      cbn; rewrite ?Hc1, ?Hcw, ?Hst; cbn.
      split; [| auto]. unfold consistent. cbn. rewrite ?Hc1, ?Hcw.
      repeat split; intros; try discriminate. apply Hc4. assumption.
Qed.

Lemma invariant_step (data : StoredData.t num) (sg : App.t num * Seen) (i : Input num) :
  invariant data sg -> invariant data (stepSeen sg i).
Proof. destruct i; [apply invariant_sample | apply invariant_manual]. Qed.

Lemma invariant_fold (data : StoredData.t num) (inputs : list (Input num))
    (sg : App.t num * Seen) :
  invariant data sg -> invariant data (fold_left stepSeen inputs sg).
Proof.
  revert sg. induction inputs as [| i inputs IH]; intros sg Hsg; [assumption |].
  cbn. apply IH. now apply invariant_step.
Qed.

Lemma runSeen_fst (inputs : list (Input num)) (sg : App.t num * Seen) :
  fst (fold_left stepSeen inputs sg) = run (fst sg) inputs.
Proof.
  revert sg. induction inputs as [| i inputs IH]; intros sg; [reflexivity |].
  cbn. now rewrite IH.
Qed.

(** Every state reached from the initial one, with its record. *)
Lemma invariant_run (data : StoredData.t num) (inputs : list (Input num)) :
  invariant data (run (initial data) inputs, seen data inputs).
Proof.
  pose proof (invariant_fold inputs (invariant_initial data)) as Hinv.
  pose proof (runSeen_fst inputs (initial data, None)) as Hfst. cbn [fst] in Hfst.
  unfold seen, runSeen. rewrite <- Hfst.
  now destruct (fold_left stepSeen inputs (initial data, None)).
Qed.

Lemma consistent_run (data : StoredData.t num) (inputs : list (Input num)) :
  consistent (run (initial data) inputs).
Proof. apply (invariant_run data inputs). Qed.

End Invariant.

(** ** Properties that hold along every run *)

Section RunProperties.
Context {num : Type} `{JSNumber num}.
Local Open Scope js_scope.

Lemma within_not_beyond (homeZone : Zone.t num) (pos : Position.t num) :
  withinHome homeZone pos -> (distanceFromHome homeZone pos >? HOME_RADIUS_KM) = false.
Proof.
  unfold withinHome. intros Hw.
  destruct (distanceFromHome homeZone pos >? HOME_RADIUS_KM) eqn:E; [| reflexivity].
  apply gtb_not_leb in E. congruence.
Qed.

Lemma beyond_not_within (homeZone : Zone.t num) (pos : Position.t num) :
  beyondHome homeZone pos -> (distanceFromHome homeZone pos <=? HOME_RADIUS_KM) = false.
Proof. unfold beyondHome. apply gtb_not_leb. Qed.

(** C1. After every sequence of position samples and manual starts, the
    detection state is walking or returning exactly when a walk is in
    progress and at_home or leaving exactly when none is; the walk in
    progress is the only one without an end time: every walk the engine has
    added to the history carries one. *)
Theorem state_agrees_with_walk (data : StoredData.t num) (inputs : list (Input num)) :
  let s := run (initial data) inputs in
  ((App.walkStatusRef s = walking \/ App.walkStatusRef s = returning) <->
   exists w, App.currentWalk s = Some w) /\
  ((App.walkStatusRef s = at_home \/ App.walkStatusRef s = leaving) <->
   App.currentWalk s = None) /\
  (forall w, App.currentWalk s = Some w -> Walk.endTime w = None) /\
  exists completed,
    StoredData.walks (App.storedData s) = StoredData.walks data ++ completed /\
    Forall (fun w => Walk.endTime w <> None) completed.
Proof.
  intros s.
  destruct (invariant_run data inputs) as ((Hc1 & Hc2 & _ & _) & _ & Hdone & Hw).
  cbn [fst snd] in *. fold s in Hc1, Hc2, Hdone, Hw.
  rewrite Hc1 in Hc2.
  repeat split.
  - intros Hst. destruct (App.currentWalk s) as [w |] eqn:Hcw; [now exists w |].
    destruct Hst as [Hst | Hst]; rewrite Hst in Hc2; discriminate.
  - intros [w Hcw]. rewrite Hcw in Hc2.
    destruct (App.walkStatusRef s); cbn in Hc2; try discriminate; auto.
  - intros Hst. destruct (App.currentWalk s); [| reflexivity].
    destruct Hst as [Hst | Hst]; rewrite Hst in Hc2; discriminate.
  - intros Hcw. rewrite Hcw in Hc2.
    destruct (App.walkStatusRef s); cbn in Hc2; try discriminate; auto.
  - intros w Hcw. rewrite Hcw in Hw.
    destruct (seen data inputs) as [[seed samples] |]; [apply Hw | contradiction].
  - destruct Hdone as [completed [Hwalks Hfin]]. exists completed. split; [assumption |].
    eapply Forall_impl; [| exact Hfin]. intros w Hf. apply Hf.
Qed.

(** C5. Along every run the distance of the walk in progress is the sum of
    the distances between consecutive points of its path, and so is the
    distance of every walk the run has completed. *)
Theorem distance_is_path_length (data : StoredData.t num) (inputs : list (Input num)) :
  let s := run (initial data) inputs in
  (forall w, App.currentWalk s = Some w -> Walk.distance w = pathLength (Walk.path w)) /\
  exists completed,
    StoredData.walks (App.storedData s) = StoredData.walks data ++ completed /\
    Forall (fun w => Walk.distance w = pathLength (Walk.path w)) completed.
Proof.
  intros s.
  destruct (invariant_run data inputs) as (_ & _ & Hdone & Hw).
  cbn [fst snd] in *. fold s in Hdone, Hw. split.
  - intros w Hcw. rewrite Hcw in Hw.
    destruct (seen data inputs) as [[seed samples] |]; [apply Hw | contradiction].
  - destruct Hdone as [completed [Hwalks Hfin]]. exists completed. split; [assumption |].
    eapply Forall_impl; [| exact Hfin]. intros w Hf. apply Hf.
Qed.

Lemma count_once (l : list string) (x : string) :
  NoDup l -> In x l -> count_occ string_dec l x = 1%nat.
Proof.
  intros Hnd Hin.
  pose proof (proj1 (NoDup_count_occ string_dec l) Hnd x) as Hle.
  pose proof (proj1 (count_occ_In string_dec l x) Hin) as Hgt.
  lia.
Qed.

(** C8. Along every run the zone names of the walk in progress are free of
    duplicates, and the name of each named zone that contains at least one
    of the samples processed in the walking state occurs exactly once; the
    same holds of every walk the run has completed, whose samples are the
    points of its path after the first. *)
Theorem zones_visited_once (data : StoredData.t num) (inputs : list (Input num)) :
  let s := run (initial data) inputs in
  (forall w, App.currentWalk s = Some w ->
     NoDup (Walk.zonesVisited w) /\
     exists seed samples,
       seen data inputs = Some (seed, samples) /\
       forall z p, In z (StoredData.customZones data) -> In p samples -> withinZone z p ->
                   count_occ string_dec (Walk.zonesVisited w) (Zone.name z) = 1%nat) /\
  exists completed,
    StoredData.walks (App.storedData s) = StoredData.walks data ++ completed /\
    Forall (fun w =>
              NoDup (Walk.zonesVisited w) /\
              forall z p, In z (StoredData.customZones data) -> In p (tl (Walk.path w)) ->
                          withinZone z p ->
                          count_occ string_dec (Walk.zonesVisited w) (Zone.name z) = 1%nat)
      completed.
Proof.
  intros s.
  destruct (invariant_run data inputs) as (_ & _ & Hdone & Hw).
  cbn [fst snd] in *. fold s in Hdone, Hw. split.
  - intros w Hcw. rewrite Hcw in Hw.
    destruct (seen data inputs) as [[seed samples] |]; [| contradiction].
    destruct Hw as (_ & _ & _ & Hnd & Hzones). split; [assumption |].
    exists seed, samples. split; [reflexivity |].
    intros z p Hz Hp Hwz. apply count_once; [assumption | now apply (Hzones z p)].
  - destruct Hdone as [completed [Hwalks Hfin]]. exists completed. split; [assumption |].
    eapply Forall_impl; [| exact Hfin]. intros w (_ & _ & Hnd & Hzones).
    split; [assumption |].
    intros z p Hz Hp Hwz. apply count_once; [assumption | now apply (Hzones z p)].
Qed.

(** C10. Along every run the path of the walk in progress is the position
    the walk was started with followed by exactly the samples processed in
    the walking state, in order, and its distance is the length of that
    path.  A sample met in the returning state leaves the walk as it is, or
    completes it with path and distance unchanged; a sample met in the
    leaving state starts at most a walk whose path is the remembered start
    position alone, at distance zero. *)
Theorem path_is_seed_then_walking_samples (data : StoredData.t num)
    (inputs : list (Input num)) :
  let s := run (initial data) inputs in
  (forall w, App.currentWalk s = Some w ->
     exists seed samples,
       seen data inputs = Some (seed, samples) /\
       Walk.path w = seed :: samples /\
       Walk.distance w = pathLength (seed :: samples)) /\
  (forall now pos w,
     App.walkStatusRef s = returning ->
     App.currentWalk s = Some w ->
     let s' := processPositionUpdate now pos s in
     App.currentWalk s' = Some w \/
     (App.currentWalk s' = None /\
      exists w', StoredData.walks (App.storedData s') =
                   StoredData.walks (App.storedData s) ++ [w'] /\
                 Walk.path w' = Walk.path w /\ Walk.distance w' = Walk.distance w)) /\
  (forall now pos w',
     App.walkStatusRef s = leaving ->
     App.currentWalk (processPositionUpdate now pos s) = Some w' ->
     exists seed, Confirmation.startPosition (App.confirmationRef s) = Some seed /\
                  Walk.path w' = [seed] /\ Walk.distance w' = lit 0).
Proof.
  intros s.
  destruct (invariant_run data inputs) as ((Hc1 & Hc2 & Hc3 & _) & _ & _ & Hw).
  cbn [fst snd] in *. fold s in Hc1, Hc2, Hc3, Hw. split; [| split].
  - intros w Hcw. rewrite Hcw in Hw.
    destruct (seen data inputs) as [[seed samples] |]; [| contradiction].
    destruct Hw as (Hpath & _ & Hdist & _). exists seed, samples.
    rewrite <- Hpath. auto.
  - intros now pos w Hst Hcw.
    destruct (StoredData.homeZone (App.storedData s)) as [hz |] eqn:Hhome.
    2:{ left. rewrite (update_without_home now pos s Hhome). exact Hcw. }
    destruct (bool_cases (distanceFromHome hz pos <=? HOME_RADIUS_KM)) as [Hd | Hd].
    + rewrite (update_returning_within now pos s hz Hhome w Hst Hcw Hd). cbn zeta.
      destruct (Confirmation.points (App.confirmationRef s) + 1 >=? _)%Z; cbn.
      * right. split; [reflexivity |]. eexists. split; [reflexivity |]. cbn. auto.
      * left. exact Hcw.
    + left. rewrite (update_returning_away now pos s hz Hhome Hst Hd). exact Hcw.
  - intros now pos w' Hst.
    rewrite Hst in Hc1. cbn in Hc1. rewrite Hc1 in Hc2.
    destruct (App.currentWalk s) eqn:Hcw; [discriminate |].
    destruct (StoredData.homeZone (App.storedData s)) as [hz |] eqn:Hhome.
    2:{ rewrite (update_without_home now pos s Hhome). cbn. rewrite Hcw. discriminate. }
    destruct (bool_cases (distanceFromHome hz pos >? HOME_RADIUS_KM)) as [Hd | Hd].
    + rewrite (update_leaving_beyond now pos s hz Hhome Hst Hd). cbn zeta.
      destruct (Confirmation.startPosition (App.confirmationRef s)) as [p |] eqn:Hp;
        [| now elim (Hc3 Hst)].
      destruct (Confirmation.points (App.confirmationRef s) + 1 >=? _)%Z.
      * rewrite startWalk_idle by exact Hc1. cbn. intros E. injection E as <-.
        exists p. cbn. auto.
      * cbn. rewrite Hcw. discriminate.
    + rewrite (update_leaving_back now pos s hz Hhome Hst Hd). cbn. rewrite Hcw. discriminate.
Qed.

End RunProperties.

(** ** The transitions of the detection state *)

Section Transitions.
Context {num : Type} `{JSNumber num}.
Local Open Scope js_scope.

Ltac setters :=
  unfold setConfirmation, setWalkStatus, setCurrentWalk, setIsWalking, saveData,
    setCurrentPosition; cbn.

Lemma consistent_idle (s : App.t num) :
  consistent s ->
  in_walk (App.walkStatusRef s) = false ->
  App.isWalking s = false /\ App.currentWalk s = None.
Proof.
  intros (Hc1 & Hc2 & _) Hst. rewrite Hst in Hc1. rewrite Hc1 in Hc2.
  split; [assumption |]. destruct (App.currentWalk s); [discriminate | reflexivity].
Qed.

(** Three samples beyond the home radius, met at home: what each leaves. *)
Lemma three_beyond (s : App.t num) (hz : Zone.t num) (t1 t2 t3 : Z)
    (p1 p2 p3 : Position.t num) :
  StoredData.homeZone (App.storedData s) = Some hz ->
  App.walkStatusRef s = at_home ->
  App.isWalking s = false ->
  beyondHome hz p1 -> beyondHome hz p2 -> beyondHome hz p3 ->
  processPositionUpdate t1 p1 s =
    App.mk (Some p1) false (App.currentWalk s) (App.storedData s) leaving
      (Confirmation.mk 1 t1 (Some (pathPoint p1))) /\
  processPositionUpdate t2 p2 (processPositionUpdate t1 p1 s) =
    App.mk (Some p2) false (App.currentWalk s) (App.storedData s) leaving
      (Confirmation.mk 2 t1 (Some (pathPoint p1))) /\
  processPositionUpdate t3 p3
    (processPositionUpdate t2 p2 (processPositionUpdate t1 p1 s)) =
    App.mk (Some p3) true
      (Some (Walk.mk (walk_id t1) t1 None 0 (lit 0) [pathPoint p1] []))
      (App.storedData s) walking (Confirmation.mk 3 t1 (Some (pathPoint p1))).
Proof.
  intros Hhome Hst Hiw H1 H2 H3.
  set (a1 := App.mk (Some p1) false (App.currentWalk s) (App.storedData s) leaving
               (Confirmation.mk 1 t1 (Some (pathPoint p1)))).
  set (a2 := App.mk (Some p2) false (App.currentWalk s) (App.storedData s) leaving
               (Confirmation.mk 2 t1 (Some (pathPoint p1)))).
  assert (E1 : processPositionUpdate t1 p1 s = a1).
  { rewrite (update_at_home_beyond t1 p1 s hz Hhome Hst H1). setters. now rewrite Hiw. }
  assert (E2 : processPositionUpdate t2 p2 a1 = a2).
  { rewrite (update_leaving_beyond t2 p2 a1 hz Hhome eq_refl H2). reflexivity. }
  rewrite E1, E2.
  split; [reflexivity | split; [reflexivity |]].
  rewrite (update_leaving_beyond t3 p3 a2 hz Hhome eq_refl H3). reflexivity.
Qed.

(** C2. Met at home in a consistent state, two consecutive samples beyond
    the home radius leave the engine in the leaving state with no walk; the
    third sets the state to walking, raises the walking flag (the start of
    the walk as the application sees it) and creates the walk in progress,
    which carries the time and the position of the first of the three
    samples, that position being its whole path. *)
Theorem start_debounce (s : App.t num) (hz : Zone.t num) (t1 t2 t3 : Z)
    (p1 p2 p3 : Position.t num) :
  consistent s ->
  StoredData.homeZone (App.storedData s) = Some hz ->
  App.walkStatusRef s = at_home ->
  beyondHome hz p1 -> beyondHome hz p2 -> beyondHome hz p3 ->
  let s1 := processPositionUpdate t1 p1 s in
  let s2 := processPositionUpdate t2 p2 s1 in
  let s3 := processPositionUpdate t3 p3 s2 in
  (App.walkStatusRef s1 = leaving /\ App.isWalking s1 = false /\ App.currentWalk s1 = None) /\
  (App.walkStatusRef s2 = leaving /\ App.isWalking s2 = false /\ App.currentWalk s2 = None) /\
  (App.walkStatusRef s3 = walking /\ App.isWalking s3 = true /\
   App.currentWalk s3 =
     Some (Walk.mk (walk_id t1) t1 None 0 (lit 0) [pathPoint p1] [])).
Proof.
  intros Hc Hhome Hst H1 H2 H3 s1 s2 s3.
  destruct (consistent_idle Hc) as [Hiw Hcw]; [now rewrite Hst |].
  destruct (three_beyond s t1 t2 t3 Hhome Hst Hiw H1 H2 H3) as (E1 & E2 & E3).
  subst s1 s2 s3. rewrite E3, E2, E1. cbn. rewrite Hcw. auto 10.
Qed.

Lemma consistent_busy (s : App.t num) (w : Walk.t num) :
  consistent s ->
  App.currentWalk s = Some w ->
  App.isWalking s = true /\
  exists lastPoint, nth_error (Walk.path w) (List.length (Walk.path w) - 1) = Some lastPoint.
Proof.
  intros (_ & Hc2 & _ & Hc4) Hcw. rewrite Hcw in Hc2. split; [assumption |].
  apply last_point_exists. now apply Hc4.
Qed.

(** C3. From the walking state a sample within the home radius moves the
    engine to returning, with the walk still in progress; a second
    consecutive one hands the walk over to the history with the time of the
    first of the two as its end time and the whole seconds between start
    and end as its duration, clears the walk in progress and the walking
    flag, and sets the state to at_home. *)
Theorem end_debounce (s : App.t num) (hz : Zone.t num) (w : Walk.t num) (t1 t2 : Z)
    (p1 p2 : Position.t num) :
  consistent s ->
  StoredData.homeZone (App.storedData s) = Some hz ->
  App.walkStatusRef s = walking ->
  App.currentWalk s = Some w ->
  withinHome hz p1 -> withinHome hz p2 ->
  let s1 := processPositionUpdate t1 p1 s in
  let s2 := processPositionUpdate t2 p2 s1 in
  exists w1,
    (App.walkStatusRef s1 = returning /\ App.currentWalk s1 = Some w1 /\
     App.isWalking s1 = true /\
     StoredData.walks (App.storedData s1) = StoredData.walks (App.storedData s) /\
     Walk.startTime w1 = Walk.startTime w) /\
    (App.walkStatusRef s2 = at_home /\ App.currentWalk s2 = None /\
     App.isWalking s2 = false /\
     StoredData.walks (App.storedData s2) =
       StoredData.walks (App.storedData s) ++
       [Walk.mk (Walk.id w1) (Walk.startTime w) (Some t1)
          ((t1 - Walk.startTime w) / 1000)%Z
          (Walk.distance w1) (Walk.path w1) (Walk.zonesVisited w1)]).
Proof.
  intros Hc Hhome Hst Hcw H1 H2 s1 s2.
  destruct (consistent_busy Hc Hcw) as [Hiw [lastPoint Hlast]].
  assert (E1 : exists w1,
             Walk.startTime w1 = Walk.startTime w /\
             s1 = App.mk (Some p1) true (Some w1) (App.storedData s) returning
                    (Confirmation.mk 1 t1 None)).
  { subst s1. rewrite (update_walking t1 p1 s hz Hhome w lastPoint Hst Hcw Hlast).
    cbn zeta. unfold withinHome in H1. rewrite H1. setters. rewrite Hiw.
    eexists. split; [| reflexivity]. reflexivity. }
  destruct E1 as [w1 [Hstart E1]]. exists w1.
  subst s2. rewrite E1.
  split; [cbn; auto |].
  set (a1 := App.mk (Some p1) true (Some w1) (App.storedData s) returning
               (Confirmation.mk 1 t1 None)).
  rewrite (update_returning_within t2 p2 a1 hz Hhome w1 eq_refl eq_refl H2).
  cbn. rewrite Hstart. auto.
Qed.

(** C4. From the returning state a sample beyond the home radius sets the
    state back to walking and leaves the walk in progress and the history
    untouched; the next sample is then appended to the path of that same
    walk and the distance from its last point is added to its distance. *)
Theorem return_interrupted (s : App.t num) (hz : Zone.t num) (w : Walk.t num) (t : Z)
    (p : Position.t num) :
  consistent s ->
  StoredData.homeZone (App.storedData s) = Some hz ->
  App.walkStatusRef s = returning ->
  App.currentWalk s = Some w ->
  beyondHome hz p ->
  let s1 := processPositionUpdate t p s in
  App.walkStatusRef s1 = walking /\ App.currentWalk s1 = Some w /\
  App.isWalking s1 = true /\
  StoredData.walks (App.storedData s1) = StoredData.walks (App.storedData s) /\
  exists lastPoint,
    nth_error (Walk.path w) (List.length (Walk.path w) - 1) = Some lastPoint /\
    forall t' q,
      let s2 := processPositionUpdate t' q s1 in
      exists w',
        App.currentWalk s2 = Some w' /\
        Walk.id w' = Walk.id w /\ Walk.startTime w' = Walk.startTime w /\
        Walk.endTime w' = Walk.endTime w /\
        Walk.path w' = Walk.path w ++ [pathPoint q] /\
        Walk.distance w' =
          Walk.distance w +
          getDistance (LatLng.lat lastPoint) (LatLng.lng lastPoint)
            (Position.latitude q) (Position.longitude q) /\
        StoredData.walks (App.storedData s2) = StoredData.walks (App.storedData s).
Proof.
  intros Hc Hhome Hst Hcw Hp s1.
  destruct (consistent_busy Hc Hcw) as [Hiw [lastPoint Hlast]].
  assert (E1 : s1 = setWalkStatus walking (setCurrentPosition (Some p) s)).
  { subst s1. apply (update_returning_away t p s hz Hhome Hst).
    now apply beyond_not_within. }
  rewrite E1. cbn.
  split; [reflexivity | split; [assumption | split; [assumption | split; [reflexivity |]]]].
  exists lastPoint. split; [assumption |].
  intros t' q.
  rewrite (update_walking t' q (setWalkStatus walking (setCurrentPosition (Some p) s)) hz
             Hhome w lastPoint eq_refl Hcw Hlast).
  cbn zeta. eexists.
  destruct (distanceFromHome hz q <=? HOME_RADIUS_KM); cbn;
    (split; [reflexivity |]); cbn; auto 10.
Qed.

(** C6, as the code has it.  From the leaving state a sample within the home
    radius sets the state back to at_home and leaves the confirmation record
    as it was; the count starts again at one with the next sample beyond the
    radius, so that only the third consecutive such sample starts a walk,
    which carries the time and position of the first of these three. *)
Theorem leaving_revert (s : App.t num) (hz : Zone.t num) (t t1 t2 t3 : Z)
    (p q1 q2 q3 : Position.t num) :
  consistent s ->
  StoredData.homeZone (App.storedData s) = Some hz ->
  App.walkStatusRef s = leaving ->
  withinHome hz p ->
  beyondHome hz q1 -> beyondHome hz q2 -> beyondHome hz q3 ->
  let s0 := processPositionUpdate t p s in
  let s1 := processPositionUpdate t1 q1 s0 in
  let s2 := processPositionUpdate t2 q2 s1 in
  let s3 := processPositionUpdate t3 q3 s2 in
  (App.walkStatusRef s0 = at_home /\ App.currentWalk s0 = None /\
   App.isWalking s0 = false /\ App.confirmationRef s0 = App.confirmationRef s) /\
  (App.walkStatusRef s1 = leaving /\ App.currentWalk s1 = None /\
   App.confirmationRef s1 = Confirmation.mk 1 t1 (Some (pathPoint q1))) /\
  (App.walkStatusRef s2 = leaving /\ App.currentWalk s2 = None) /\
  (App.walkStatusRef s3 = walking /\
   App.currentWalk s3 =
     Some (Walk.mk (walk_id t1) t1 None 0 (lit 0) [pathPoint q1] [])).
Proof.
  intros Hc Hhome Hst Hp H1 H2 H3 s0 s1 s2 s3.
  destruct (consistent_idle Hc) as [Hiw Hcw]; [now rewrite Hst |].
  assert (E0 : s0 = setWalkStatus at_home (setCurrentPosition (Some p) s)).
  { subst s0. apply (update_leaving_back t p s hz Hhome Hst).
    now apply within_not_beyond. }
  destruct (three_beyond s0 t1 t2 t3 (hz := hz) (p1 := q1) (p2 := q2) (p3 := q3))
    as (E1 & E2 & E3); try assumption; try (rewrite E0; assumption || reflexivity).
  subst s1 s2 s3. rewrite E3, E2, E1. rewrite E0. cbn. rewrite Hcw. auto 10.
Qed.

(** C9. Along every run, a manual start requested while a walk is in
    progress leaves the whole state of the engine as it is. *)
Theorem manual_start_rejected (data : StoredData.t num) (inputs : list (Input num))
    (now : Z) :
  let s := run (initial data) inputs in
  App.currentWalk s <> None ->
  handleManualStart now s = s.
Proof.
  intros s Hcw.
  destruct (consistent_run data inputs) as (_ & Hc2 & _). fold s in Hc2.
  unfold handleManualStart. destruct (App.currentPosition s); [| reflexivity].
  apply startWalk_busy. rewrite Hc2. destruct (App.currentWalk s); [reflexivity | contradiction].
Qed.

End Transitions.

(** ** The example installation at work *)

Module ExampleRuns.
Import RealNumber RealGeodesy Example.

Lemma walkingState_consistent : consistent walkingState.
Proof. unfold consistent. cbn. repeat split; intros; try discriminate.
  injection H as <-. discriminate. Qed.

Lemma returningState_consistent : consistent returningState.
Proof. unfold consistent. cbn. repeat split; intros; try discriminate.
  injection H as <-. discriminate. Qed.

Lemma leavingState_consistent : consistent leavingState.
Proof. unfold consistent. cbn. repeat split; intros; discriminate. Qed.

Lemma outing_states :
  step (initial data) (Sample 1000 farPos) =
    App.mk (Some farPos) false None data leaving
      (Confirmation.mk 1 1000 (Some (pathPoint farPos))) /\
  step (App.mk (Some farPos) false None data leaving
          (Confirmation.mk 1 1000 (Some (pathPoint farPos)))) (Sample 2000 farPos) =
    App.mk (Some farPos) false None data leaving
      (Confirmation.mk 2 1000 (Some (pathPoint farPos))) /\
  step (App.mk (Some farPos) false None data leaving
          (Confirmation.mk 2 1000 (Some (pathPoint farPos)))) (Sample 3000 farPos) =
    App.mk (Some farPos) true
      (Some (Walk.mk (walk_id 1000) 1000 None 0 (lit 0) [pathPoint farPos] []))
      data walking (Confirmation.mk 3 1000 (Some (pathPoint farPos))) /\
  step (App.mk (Some farPos) true
          (Some (Walk.mk (walk_id 1000) 1000 None 0 (lit 0) [pathPoint farPos] []))
          data walking (Confirmation.mk 3 1000 (Some (pathPoint farPos))))
       (Sample 4000 farPos) = outingState.
Proof.
  destruct (three_beyond (initial data) 1000 2000 3000 (hz := home)
              (p1 := farPos) (p2 := farPos) (p3 := farPos))
    as (E1 & E2 & E3); try reflexivity; try exact far_beyond.
  cbn [step]. rewrite E1 in E2, E3. rewrite E2 in E3.
  split; [exact E1 | split; [exact E2 | split; [exact E3 |]]].
  match goal with
  | |- processPositionUpdate _ _ ?a = _ =>
      rewrite (update_walking 4000 farPos a home (eq_refl : _ = Some home)
                 (Walk.mk (walk_id 1000) 1000 None 0 (lit 0) [pathPoint farPos] [])
                 (pathPoint farPos) eq_refl eq_refl eq_refl)
  end.
  cbn zeta. rewrite (beyond_not_within far_beyond).
  unfold outingState, outingWalk, setCurrentWalk, setCurrentPosition. cbn.
  unfold visitZones. cbn.
  pose proof far_in_park as Hpark. unfold withinZone in Hpark. cbn in Hpark.
  rewrite Hpark. reflexivity.
Qed.

Lemma outing_run : run (initial data) outing = outingState.
Proof.
  destruct outing_states as (E1 & E2 & E3 & E4).
  unfold run, outing. cbn [fold_left]. now rewrite E1, E2, E3, E4.
Qed.

Lemma outing_seen : seen data outing = Some (pathPoint farPos, [pathPoint farPos]).
Proof.
  destruct outing_states as (E1 & E2 & E3 & E4).
  unfold seen, runSeen, outing, stepSeen, observe. cbn [fold_left fst snd].
  rewrite E1. cbn [fst snd]. rewrite E2. cbn [fst snd]. rewrite E3. cbn [fst snd].
  rewrite E4. reflexivity.
Qed.

End ExampleRuns.

(** ** Geodesy *)

Module GeodesyLaws.
Import RealNumber RealGeodesy.
Local Open Scope R_scope.




End GeodesyLaws.

(** ** The properties at the example installation *)

Module AtExample.
Import RealNumber RealGeodesy Example ExampleRuns.

Lemma state_agrees_with_walk_witness :
  App.walkStatusRef (run (initial data) outing) = walking /\
  exists w, App.currentWalk (run (initial data) outing) = Some w.
Proof.
  assert (Hst : App.walkStatusRef (run (initial data) outing) = walking)
    by (rewrite outing_run; reflexivity).
  split; [exact Hst |].
  apply (proj1 (state_agrees_with_walk data outing)). left. exact Hst.
Defined.

Lemma start_debounce_witness :
  beyondHome home farPos /\
  App.currentWalk
    (processPositionUpdate 3000 farPos
       (processPositionUpdate 2000 farPos
          (processPositionUpdate 1000 farPos (initial data)))) =
  Some (Walk.mk (walk_id 1000) 1000 None 0 (lit 0) [pathPoint farPos] []).
Proof.
  split; [exact far_beyond |].
  apply (start_debounce (hz := home) 1000 2000 3000 (initial_consistent data)
           eq_refl eq_refl far_beyond far_beyond far_beyond).
Defined.

Lemma end_debounce_witness :
  withinHome home nearPos /\
  exists w1,
    StoredData.walks
      (App.storedData
         (processPositionUpdate 10000 nearPos
            (processPositionUpdate 9000 nearPos walkingState))) =
    [Walk.mk (Walk.id w1) 5 (Some 9000) 8 (Walk.distance w1) (Walk.path w1)
       (Walk.zonesVisited w1)].
Proof.
  split; [exact near_within |].
  destruct (end_debounce (hz := home) 9000 10000 walkingState_consistent
              eq_refl eq_refl eq_refl near_within near_within)
    as [w1 [_ (_ & _ & _ & Hwalks)]].
  exists w1. exact Hwalks.
Defined.

Lemma return_interrupted_witness :
  beyondHome home farPos /\
  App.walkStatusRef (processPositionUpdate 7000 farPos returningState) = walking /\
  App.currentWalk (processPositionUpdate 7000 farPos returningState) = Some walk0.
Proof.
  split; [exact far_beyond |].
  destruct (return_interrupted (hz := home) 7000 returningState_consistent
              eq_refl eq_refl eq_refl far_beyond)
    as (Hst & Hcw & _).
  split; [exact Hst | exact Hcw].
Defined.

Lemma distance_is_path_length_witness :
  App.currentWalk (run (initial data) outing) = Some outingWalk /\
  Walk.distance outingWalk = pathLength (Walk.path outingWalk).
Proof.
  assert (Hcw : App.currentWalk (run (initial data) outing) = Some outingWalk)
    by (rewrite outing_run; reflexivity).
  split; [exact Hcw |].
  apply (proj1 (distance_is_path_length data outing) outingWalk Hcw).
Defined.

(** After the first sample beyond the radius and one back within it the
    engine is at home again and the count stands at one, not at zero. *)
Lemma leaving_revert_counter_not_cleared :
  let s1 := processPositionUpdate 1000 farPos (initial data) in
  let s2 := processPositionUpdate 2000 nearPos s1 in
  App.walkStatusRef s1 = leaving /\
  App.walkStatusRef s2 = at_home /\
  Confirmation.points (App.confirmationRef s2) = 1%Z /\
  Confirmation.points (App.confirmationRef s2) <> 0%Z.
Proof.
  cbv zeta.
  rewrite (update_at_home_beyond 1000 farPos (initial data) home eq_refl eq_refl far_beyond).
  split; [reflexivity |].
  match goal with
  | |- context [processPositionUpdate 2000 nearPos ?a] =>
      rewrite (update_leaving_back 2000 nearPos a home eq_refl eq_refl
                 (within_not_beyond near_within))
  end.
  cbn. repeat split. discriminate.
Qed.

Lemma leaving_revert_witness :
  withinHome home nearPos /\ beyondHome home farPos /\
  App.walkStatusRef (processPositionUpdate 2000 nearPos leavingState) = at_home /\
  App.currentWalk
    (processPositionUpdate 5000 farPos
       (processPositionUpdate 4000 farPos
          (processPositionUpdate 3000 farPos
             (processPositionUpdate 2000 nearPos leavingState)))) =
  Some (Walk.mk (walk_id 3000) 3000 None 0 (lit 0) [pathPoint farPos] []).
Proof.
  split; [exact near_within | split; [exact far_beyond |]].
  destruct (leaving_revert (hz := home) 2000 3000 4000 5000 leavingState_consistent
              eq_refl eq_refl near_within far_beyond far_beyond far_beyond)
    as ((Hst & _) & _ & _ & (_ & Hcw)).
  split; [exact Hst | exact Hcw].
Defined.

Lemma zones_visited_once_witness :
  withinZone park (pathPoint farPos) /\
  count_occ string_dec (Walk.zonesVisited outingWalk) (Zone.name park) = 1%nat.
Proof.
  split; [exact far_in_park |].
  assert (Hcw : App.currentWalk (run (initial data) outing) = Some outingWalk)
    by (rewrite outing_run; reflexivity).
  destruct (proj1 (zones_visited_once data outing) outingWalk Hcw)
    as [_ (seed & samples & Hseen & Hcount)].
  rewrite outing_seen in Hseen. injection Hseen as <- <-.
  apply (Hcount park (pathPoint farPos)).
  - left. reflexivity.
  - left. reflexivity.
  - exact far_in_park.
Defined.

Lemma manual_start_rejected_witness :
  App.currentWalk (run (initial data) outing) <> None /\
  handleManualStart 6000 (run (initial data) outing) = run (initial data) outing.
Proof.
  assert (Hcw : App.currentWalk (run (initial data) outing) <> None)
    by (rewrite outing_run; discriminate).
  split; [exact Hcw |].
  apply (manual_start_rejected data outing 6000 Hcw).
Defined.

Lemma path_is_seed_then_walking_samples_witness :
  App.currentWalk (run (initial data) outing) = Some outingWalk /\
  Walk.path outingWalk = [pathPoint farPos; pathPoint farPos].
Proof.
  assert (Hcw : App.currentWalk (run (initial data) outing) = Some outingWalk)
    by (rewrite outing_run; reflexivity).
  split; [exact Hcw |].
  destruct (proj1 (path_is_seed_then_walking_samples data outing) outingWalk Hcw)
    as (seed & samples & Hseen & Hpath & _).
  rewrite outing_seen in Hseen. injection Hseen as <- <-. exact Hpath.
Defined.

End AtExample.

(** ** Every sample takes one row of the table *)

Section RowsOfTheCode.
Context {num : Type} `{JSNumber num}.
Local Open Scope js_scope.

Ltac records :=
  unfold setConfirmation, setWalkStatus, setCurrentWalk, setIsWalking, saveData,
    setCurrentPosition; cbn.

Lemma sample_row (now : Z) (pos : Position.t num) (s : App.t num) :
  consistent s -> row now pos s (processPositionUpdate now pos s).
Proof.
  intros (Hc1 & Hc2 & Hc3 & Hc4).
  destruct (StoredData.homeZone (App.storedData s)) as [hz |] eqn:Hhome.
  2:{ rewrite (update_without_home now pos s Hhome). now constructor. }
  destruct (status_cases (App.walkStatusRef s)) as [Hst | [Hst | [Hst | Hst]]];
    rewrite Hst in Hc1; cbn in Hc1; rewrite Hc1 in Hc2.
  - destruct (App.currentWalk s) eqn:Hcw; [discriminate |].
    destruct (bool_cases (distanceFromHome hz pos >? HOME_RADIUS_KM)) as [Hd | Hd].
    + rewrite (update_at_home_beyond now pos s hz Hhome Hst Hd). records.
      rewrite Hc1, Hcw. now apply row_depart with hz.
    + rewrite (update_at_home_stay now pos s hz Hhome Hst Hd). records.
      rewrite Hc1, Hcw, Hst. now apply row_stay with hz.
  - destruct (App.currentWalk s) eqn:Hcw; [discriminate |].
    destruct (bool_cases (distanceFromHome hz pos >? HOME_RADIUS_KM)) as [Hd | Hd].
    + rewrite (update_leaving_beyond now pos s hz Hhome Hst Hd). cbn zeta.
      destruct (Confirmation.startPosition (App.confirmationRef s)) as [p |] eqn:Hp;
        [| now elim (Hc3 Hst)].
      rewrite Z.geb_leb.
      destruct (Z.leb_spec WALK_START_CONFIRMATION_COUNT
                  (Confirmation.points (App.confirmationRef s) + 1)) as [Hle | Hlt].
      * rewrite startWalk_idle by exact Hc1. records.
        replace (Confirmation.mk (Confirmation.points (App.confirmationRef s) + 1)%Z
                   (Confirmation.startTime (App.confirmationRef s)) (Some p))
          with (counted (App.confirmationRef s)) by (unfold counted; now rewrite Hp).
        now apply row_start with hz.
      * records. rewrite Hc1, Hcw, Hst.
        replace (Confirmation.mk (Confirmation.points (App.confirmationRef s) + 1)%Z
                   (Confirmation.startTime (App.confirmationRef s)) (Some p))
          with (counted (App.confirmationRef s)) by (unfold counted; now rewrite Hp).
        now apply row_count with hz.
    + rewrite (update_leaving_back now pos s hz Hhome Hst Hd). records.
      rewrite Hc1, Hcw. now apply row_back with hz.
  - destruct (App.currentWalk s) as [w |] eqn:Hcw; [| discriminate].
    destruct (last_point_exists (Hc4 w eq_refl)) as [lastPoint Hlast].
    rewrite (update_walking now pos s hz Hhome w lastPoint Hst Hcw Hlast). cbn zeta.
    destruct (bool_cases (distanceFromHome hz pos <=? HOME_RADIUS_KM)) as [Hd | Hd];
      rewrite Hd; records; rewrite ?Hc1, ?Hst.
    + now apply row_arrive with hz.
    + now apply row_walk with hz.
  - destruct (App.currentWalk s) as [w |] eqn:Hcw; [| discriminate].
    destruct (bool_cases (distanceFromHome hz pos <=? HOME_RADIUS_KM)) as [Hd | Hd].
    + rewrite (update_returning_within now pos s hz Hhome w Hst Hcw Hd). cbn zeta.
      rewrite Z.geb_leb.
      destruct (Z.leb_spec WALK_END_CONFIRMATION_COUNT
                  (Confirmation.points (App.confirmationRef s) + 1)) as [Hle | Hlt];
        records; rewrite ?Hc1, ?Hcw, ?Hst.
      * now apply row_complete with hz.
      * now apply row_wait with hz.
    + rewrite (update_returning_away now pos s hz Hhome Hst Hd). records.
      rewrite Hc1, Hcw. now apply row_resume with hz.
Qed.

Lemma manual_row (now : Z) (s : App.t num) :
  consistent s -> manualRow now s (handleManualStart now s).
Proof.
  intros (_ & Hc2 & _). unfold handleManualStart.
  destruct (App.currentPosition s) as [pos |] eqn:Hpos; [| constructor; now left].
  destruct (App.isWalking s) eqn:Hiw.
  - rewrite startWalk_busy by assumption. constructor. now right.
  - rewrite startWalk_idle by assumption. rewrite Hpos.
    apply manual_started; try assumption.
    destruct (App.currentWalk s); [discriminate | reflexivity].
Qed.

End RowsOfTheCode.

(** ** What a run keeps in order *)

Section Bookkeeping.
Context {num : Type} `{JSNumber num}.
Local Open Scope js_scope.

Lemma consistent_step (s : App.t num) (i : Input num) :
  consistent s -> consistent (step s i).
Proof.
  intros Hc. pose proof Hc as (Hc1 & Hc2 & Hc3 & Hc4). destruct i as [now pos | now]; cbn [step].
  - destruct (sample_row now pos Hc); unfold consistent; cbn;
      repeat split; intros; try discriminate; try assumption;
      try (apply Hc3; assumption); try (apply Hc4; assumption);
      match goal with E : Some _ = Some _ |- _ => injection E as <- end;
      unfold walkedTo; cbn;
      first [ discriminate
            | apply Hc4; assumption
            | intros E'; apply app_eq_nil in E'; destruct E'; discriminate ].
  - destruct (manual_row now Hc); [assumption |]. unfold consistent; cbn.
    repeat split; intros; try discriminate.
    match goal with E : Some _ = Some _ |- _ => injection E as <- end. cbn. discriminate.
Qed.

Lemma consistent_from (inputs : list (Input num)) (s : App.t num) :
  consistent s -> consistent (run s inputs).
Proof.
  revert s. induction inputs as [| i inputs IH]; intros s Hc; [assumption |].
  cbn. apply IH. now apply consistent_step.
Qed.

(** Induction along a run: what holds at the start and survives every row
    of the table holds at the end. *)
Lemma run_induction (P : App.t num -> Prop) :
  (forall s now pos s', consistent s -> P s -> row now pos s s' -> P s') ->
  (forall s now s', consistent s -> P s -> manualRow now s s' -> P s') ->
  forall inputs s, consistent s -> P s -> P (run s inputs).
Proof.
  intros Hrow Hmanual. induction inputs as [| i inputs IH]; intros s Hc HP; [assumption |].
  cbn. apply IH; [now apply consistent_step |].
  destruct i as [now pos | now]; cbn [step].
  - apply (Hrow s now pos); [assumption | assumption | now apply sample_row].
  - apply (Hmanual s now); [assumption | assumption | now apply manual_row].
Qed.

Lemma ledger_initial (data : StoredData.t num) : ledger data (initial data).
Proof.
  unfold ledger, initial. cbn. repeat split; try discriminate.
  exists []. split; [now rewrite app_nil_r | constructor].
Qed.

Lemma ledger_row (data : StoredData.t num) (s s' : App.t num) (now : Z)
    (pos : Position.t num) :
  consistent s -> ledger data s -> row now pos s s' -> ledger data s'.
Proof.
  intros Hc (Hh & Hz & Hs & Hl & Hr & Hw & completed & Hwalks & Hrec) Hrow.
  unfold WALK_START_CONFIRMATION_COUNT, WALK_END_CONFIRMATION_COUNT in *.
  destruct Hrow; unfold ledger; cbn;
    (split; [assumption |]); (split; [assumption |]); (split; [assumption |]);
    unfold WALK_START_CONFIRMATION_COUNT, WALK_END_CONFIRMATION_COUNT in *.
  all: try (repeat split; intros; try discriminate; try lia;
            try (apply Hw; assumption); try (apply Hl; assumption);
            try (apply Hr; assumption);
            try (specialize (Hl ltac:(assumption)); lia);
            try (specialize (Hr ltac:(assumption)); lia);
            try (match goal with E : Some _ = Some _ |- _ => injection E as <- end; cbn;
                 first [reflexivity | apply (Hw _ ltac:(eassumption))]);
            try (exists completed; split; assumption)).
  (* the walk is handed over *)
  exists (completed ++ [completedAt (Confirmation.startTime (App.confirmationRef s)) w]).
  rewrite Hwalks, <- app_assoc. split; [reflexivity |].
  apply Forall_app. split; [assumption |]. constructor; [| constructor].
  destruct (Hw w ltac:(assumption)) as (Hid & _). unfold recorded. cbn.
  split; [assumption |]. eexists. split; reflexivity.
Qed.

Lemma ledger_manual (data : StoredData.t num) (s s' : App.t num) (now : Z) :
  consistent s -> ledger data s -> manualRow now s s' -> ledger data s'.
Proof.
  intros Hc Hl Hrow. destruct Hrow; [assumption |].
  destruct Hl as (Hh & Hz & Hs & _ & _ & _ & Hdone).
  unfold ledger. cbn. repeat split; try assumption; intros; try discriminate.
  all: match goal with E : Some _ = Some _ |- _ => injection E as <- end; reflexivity.
Qed.

Lemma ledger_run (data : StoredData.t num) (inputs : list (Input num)) :
  ledger data (run (initial data) inputs).
Proof.
  apply (run_induction (ledger data)).
  - intros s now pos s' Hc HP Hrow. now apply (ledger_row Hc HP Hrow).
  - intros s now s' Hc HP Hrow. now apply (ledger_manual Hc HP Hrow).
  - apply initial_consistent.
  - apply ledger_initial.
Qed.

End Bookkeeping.

(** ** The clock *)

Section Clock.
Context {num : Type} `{JSNumber num}.
Local Open Scope js_scope.

Lemma clocked_initial (data : StoredData.t num) (T : Z) : clocked data T (initial data).
Proof.
  unfold clocked, initial. cbn. split; [intros [E | E]; discriminate |].
  split; [intros w E; discriminate |].
  exists []. split; [now rewrite app_nil_r | constructor].
Qed.

Lemma clocked_later (data : StoredData.t num) (T T' : Z) (s : App.t num) :
  (T <= T')%Z -> clocked data T s -> clocked data T' s.
Proof.
  intros Hle (Hconf & Hw & Hdone). unfold clocked. split; [| split; [| assumption]].
  - intros Hst. specialize (Hconf Hst). lia.
  - intros w Hcw. destruct (Hw w Hcw) as [Hs Hr]. split; [lia | assumption].
Qed.

Lemma clocked_row (data : StoredData.t num) (s s' : App.t num) (now : Z)
    (pos : Position.t num) :
  clocked data now s -> row now pos s s' -> clocked data now s'.
Proof.
  intros (Hconf & Hw & completed & Hwalks & Hfin) Hrow.
  destruct Hrow; unfold clocked; cbn.
  all: try (split; [| split; [| exists completed; split; assumption]]).
  all: try (intros [E | E]; try discriminate; try lia; apply Hconf; auto).
  all: try (intros w' E; try discriminate).
  all: try (match goal with E : Some _ = Some _ |- _ => injection E as <- end; cbn).
  all: try (split; [try lia; try (apply Hw; assumption); try (apply Hconf; auto)
                   | intros E'; try discriminate; try lia;
                     try (apply Hw; assumption)]).
  (* what is left: the walk is handed over *)
  split; [intros [E | E]; discriminate |].
  split; [intros w' E; discriminate |].
  exists (completed ++ [completedAt (Confirmation.startTime (App.confirmationRef s)) w]).
  rewrite Hwalks, <- app_assoc. split; [reflexivity |].
  apply Forall_app. split; [assumption |]. constructor; [| constructor].
  destruct (Hw w ltac:(assumption)) as [_ Hr]. specialize (Hr ltac:(assumption)).
  eexists. cbn. split; [reflexivity |]. split; [assumption |].
  apply Z.div_pos; lia.
Qed.

Lemma clocked_manual (data : StoredData.t num) (s s' : App.t num) (now : Z) :
  clocked data now s -> manualRow now s s' -> clocked data now s'.
Proof.
  intros Hcl Hrow. destruct Hrow; [assumption |].
  destruct Hcl as (_ & _ & Hdone). unfold clocked. cbn.
  split; [intros [E | E]; discriminate |]. split; [| assumption].
  intros w E. injection E as <-. cbn. split; [lia | intros E'; discriminate].
Qed.

Lemma clocked_from (data : StoredData.t num) (inputs : list (Input num)) :
  forall T s, consistent s -> clocked data T s -> ticking T inputs ->
              exists T', clocked data T' (run s inputs).
Proof.
  induction inputs as [| i inputs IH]; intros T s Hc Hcl Hticks; [now exists T |].
  destruct Hticks as [Hle Hrest]. cbn [run fold_left].
  apply (IH (timeOf i)); [now apply consistent_step | | assumption].
  pose proof (clocked_later Hle Hcl) as Hcl'.
  destruct i as [now pos | now]; cbn [step timeOf] in *.
  - apply (clocked_row (pos := pos) Hcl'). now apply sample_row.
  - apply (clocked_manual Hcl'). now apply manual_row.
Qed.

End Clock.

(** ** Zone names come from visits *)

Section VisitedOnly.
Context {num : Type} `{JSNumber num}.
Local Open Scope js_scope.

(** Only names of zones that contain the sample are added. *)
Lemma visitZones_only (latitude longitude : num) (zs : list (Zone.t num)) (v : list string)
    (x : string) :
  In x (visitZones latitude longitude zs v) ->
  In x v \/ exists z, In z zs /\ Zone.name z = x /\ withinZone z (LatLng.mk latitude longitude).
Proof.
  unfold visitZones, withinZone. cbn. revert v.
  induction zs as [| z zs IH]; intros v Hx; cbn in *; [now left |].
  apply IH in Hx. destruct Hx as [Hx | [z' [Hz' [Hn Hw]]]].
  - destruct (leb _ _) eqn:E; [| now left].
    apply Set_add_In in Hx. destruct Hx as [-> | Hx]; [| now left].
    right. exists z. auto.
  - right. exists z'. auto.
Qed.

Lemma visitedOnly_walkedTo (data : StoredData.t num) (w : Walk.t num)
    (samples : list (LatLng.t num)) (pos : Position.t num) (lastPoint : LatLng.t num)
    (zoneName : string) :
  (forall n, In n (Walk.zonesVisited w) ->
     exists z p, In z (StoredData.customZones data) /\ Zone.name z = n /\
                 In p samples /\ withinZone z p) ->
  In zoneName (Walk.zonesVisited (walkedTo (StoredData.customZones data) pos lastPoint w)) ->
  exists z p, In z (StoredData.customZones data) /\ Zone.name z = zoneName /\
              In p (samples ++ [pathPoint pos]) /\ withinZone z p.
Proof.
  intros Hold Hin. cbn in Hin. apply visitZones_only in Hin.
  destruct Hin as [Hin | (z & Hz & Hn & Hw)].
  - apply (proj1 (Set_new_In _ _)) in Hin.
    destruct (Hold _ Hin) as (z & p & Hz & Hn & Hp & Hw).
    exists z, p. repeat split; try assumption. apply in_app_iff. now left.
  - exists z, (pathPoint pos). repeat split; try assumption.
    apply in_app_iff. right. now left.
Qed.

Lemma visitedOnly_step (data : StoredData.t num) (sg : App.t num * Seen) (i : Input num) :
  invariant data sg -> visitedOnly data sg -> visitedOnly data (stepSeen sg i).
Proof.
  destruct sg as [s g]. unfold invariant, visitedOnly, stepSeen, observe.
  cbn [fst snd]. intros (Hc & Hz & _ & Hshape) Hold.
  pose proof Hc as (Hc1 & Hc2 & _).
  destruct i as [now pos | now]; cbn [step candidateStart].
  - pose proof (sample_row now pos Hc) as Hrow.
    remember (processPositionUpdate now pos s) as s' eqn:Es'. clear Es'.
    destruct Hrow as [Hh | hz Hh Hst Hd | hz Hh Hst Hd | hz Hh Hst Hd Hp
                     | hz sp Hh Hst Hd Hp Hsp | hz Hh Hst Hd
                     | hz w lp Hh Hst Hcw Hlp Hd | hz w lp Hh Hst Hcw Hlp Hd
                     | hz w Hh Hst Hcw Hd Hp | hz w Hh Hst Hcw Hd Hp
                     | hz w Hh Hst Hcw Hd];
      cbn; try exact I.
    + (* no home zone: nothing moves *)
      rewrite Hh. rewrite andb_false_r.
      destruct (App.isWalking s); cbn.
      * destruct (App.currentWalk s), g as [[seed samples] |]; try exact I; assumption.
      * destruct (App.currentWalk s); exact I.
    + (* a walk starts *)
      rewrite Hc1, Hst. cbn. rewrite Hsp. cbn. intros n [].
    + (* a sample met in the walking state *)
      rewrite Hc1, Hst, Hh. cbn. rewrite Hcw in Hshape, Hold.
      destruct g as [[seed samples] |]; [| exact I].
      intros n Hn. rewrite Hz in Hn.
      apply (@visitedOnly_walkedTo data w samples pos lp n Hold Hn).
    + rewrite Hc1, Hst, Hh. cbn. rewrite Hcw in Hshape, Hold.
      destruct g as [[seed samples] |]; [| exact I].
      intros n Hn. rewrite Hz in Hn.
      apply (@visitedOnly_walkedTo data w samples pos lp n Hold Hn).
    + (* the return is counted *)
      rewrite Hc1, Hst. cbn. rewrite Hcw in Hold.
      destruct g as [[seed samples] |]; [assumption | exact I].
    + (* the return is interrupted *)
      rewrite Hc1, Hst. cbn. rewrite Hcw in Hold.
      destruct g as [[seed samples] |]; [assumption | exact I].
  - pose proof (manual_row now Hc) as Hrow.
    remember (handleManualStart now s) as s' eqn:Es'. clear Es'.
    destruct Hrow as [Hig | pos Hpos Hiw Hcw]; cbn.
    + destruct (App.isWalking s); cbn.
      * destruct (App.currentWalk s), g as [[seed samples] |]; try exact I; assumption.
      * destruct (App.currentWalk s); exact I.
    + rewrite Hiw, Hpos. cbn. intros n [].
Qed.

Lemma visitedOnly_fold (data : StoredData.t num) (inputs : list (Input num))
    (sg : App.t num * Seen) :
  invariant data sg -> visitedOnly data sg ->
  visitedOnly data (fold_left stepSeen inputs sg).
Proof.
  revert sg. induction inputs as [| i inputs IH]; intros sg Hinv Hsg; [assumption |].
  cbn. apply IH; [now apply invariant_step | now apply visitedOnly_step].
Qed.

End VisitedOnly.

(** ** More of the engine *)

Section MoreOfTheEngine.
Context {num : Type} `{JSNumber num}.
Local Open Scope js_scope.

Lemma consistent_act (s : App.t num) (a : Action num) :
  consistent s -> consistent (act s a).
Proof.
  intros Hc. destruct a as [i | pos | now name lat lng radius color | confirmed id
                           | confirmed id | settings]; cbn [act].
  - now apply consistent_step.
  - exact Hc.
  - exact Hc.
  - unfold deleteZone. destruct confirmed; exact Hc.
  - unfold deleteWalk. destruct confirmed; exact Hc.
  - exact Hc.
Qed.

Lemma consistent_session (actions : list (Action num)) (s : App.t num) :
  consistent s -> consistent (session s actions).
Proof.
  revert s. induction actions as [| a actions IH]; intros s Hc; [assumption |].
  cbn. apply IH. now apply consistent_act.
Qed.

(** X1. Whatever the user and the sensor do, in any order (samples, manual
    starts, setting home, adding and deleting zones, deleting walks,
    changing settings), the walking flag is set exactly when a walk is in
    progress and exactly in the walking and returning states; so the home
    view shows the walk in progress exactly then, and high-accuracy
    sampling runs exactly when a walk is in progress with permission
    granted and a home zone set. *)
Theorem walking_flag_tracks_walk (data : StoredData.t num) (actions : list (Action num)) :
  let s := session (initial data) actions in
  (App.isWalking s = true <-> exists w, App.currentWalk s = Some w) /\
  (App.isWalking s = true <->
   App.walkStatusRef s = walking \/ App.walkStatusRef s = returning) /\
  showsWalkInProgress s = App.isWalking s /\
  forall permissionsGranted,
    sampling permissionsGranted s = HighAccuracy <->
    permissionsGranted = true /\
    StoredData.homeZone (App.storedData s) <> None /\
    exists w, App.currentWalk s = Some w.
Proof.
  intros s.
  destruct (consistent_session actions (initial_consistent data)) as (Hc1 & Hc2 & _).
  fold s in Hc1, Hc2.
  assert (Hwalk : App.isWalking s = true <-> exists w, App.currentWalk s = Some w).
  { rewrite Hc2. destruct (App.currentWalk s) as [w |]; cbn; split; intros Hx;
      try reflexivity; try discriminate; [now exists w | now destruct Hx]. }
  split; [exact Hwalk |]. split; [| split].
  - rewrite Hc1. destruct (App.walkStatusRef s); cbn; split; intros Hx;
      try discriminate; try reflexivity; auto; destruct Hx; discriminate.
  - unfold showsWalkInProgress. rewrite Hc2. now destruct (App.currentWalk s).
  - intros granted. unfold sampling. rewrite <- Hwalk.
    destruct granted, (StoredData.homeZone (App.storedData s)), (App.isWalking s); cbn;
      split; intros Hx; try discriminate; try reflexivity;
      try (repeat split; (reflexivity || discriminate));
      destruct Hx as (Hg & Hh & Hw); try discriminate; now elim Hh.
Qed.

(** X2. The engine never touches the configuration and never rewrites the
    history: along every run of samples and manual starts the home zone,
    the named zones and the settings stay as they were, and the walks
    recorded before the run remain, in order, at the front of the history. *)
Theorem engine_keeps_configuration (data : StoredData.t num) (inputs : list (Input num)) :
  let s := run (initial data) inputs in
  StoredData.homeZone (App.storedData s) = StoredData.homeZone data /\
  StoredData.customZones (App.storedData s) = StoredData.customZones data /\
  StoredData.settings (App.storedData s) = StoredData.settings data /\
  exists completed,
    StoredData.walks (App.storedData s) = StoredData.walks data ++ completed.
Proof.
  intros s. destruct (ledger_run data inputs) as (Hh & Hz & Hs & _ & _ & _ & c & Hw & _).
  repeat split; try assumption. now exists c.
Qed.

(** X4. Along every run the confirmation count stays below its threshold
    while a transition is pending: it is 1 or 2 in the leaving state, where
    the candidate start position is present, and 1 in the returning state. *)
Theorem confirmation_count_in_range (data : StoredData.t num) (inputs : list (Input num)) :
  let s := run (initial data) inputs in
  (App.walkStatusRef s = leaving ->
   (Confirmation.points (App.confirmationRef s) = 1 \/
    Confirmation.points (App.confirmationRef s) = 2)%Z /\
   Confirmation.startPosition (App.confirmationRef s) <> None) /\
  (App.walkStatusRef s = returning ->
   Confirmation.points (App.confirmationRef s) = 1%Z).
Proof.
  intros s. destruct (ledger_run data inputs) as (_ & _ & _ & Hl & Hr & _).
  destruct (consistent_run data inputs) as (_ & _ & Hc3 & _).
  fold s in Hl, Hr, Hc3.
  unfold WALK_START_CONFIRMATION_COUNT, WALK_END_CONFIRMATION_COUNT in *.
  split.
  - intros Hst. split; [specialize (Hl Hst); lia | now apply Hc3].
  - intros Hst. specialize (Hr Hst). lia.
Qed.

(** X5. Along every run the walk in progress is named [walk_] followed by
    its start time, has no end time and duration zero; every walk the run
    completed keeps that name, has an end time, and lasts the whole seconds
    between its start and its end. *)
Theorem walk_records_in_order (data : StoredData.t num) (inputs : list (Input num)) :
  let s := run (initial data) inputs in
  (forall w, App.currentWalk s = Some w ->
     Walk.id w = walk_id (Walk.startTime w) /\ Walk.endTime w = None /\
     Walk.duration w = 0%Z) /\
  exists completed,
    StoredData.walks (App.storedData s) = StoredData.walks data ++ completed /\
    Forall (fun w =>
              Walk.id w = walk_id (Walk.startTime w) /\
              exists endTime,
                Walk.endTime w = Some endTime /\
                Walk.duration w = ((endTime - Walk.startTime w) / 1000)%Z)
      completed.
Proof.
  intros s. destruct (ledger_run data inputs) as (_ & _ & _ & _ & _ & Hw & c & Hwalks & Hrec).
  split; [exact Hw |]. exists c. split; [assumption | exact Hrec].
Qed.

(** X6. When the readings of the clock never go back, every walk the run
    completes ends no earlier than it started and has a duration that is
    not negative. *)
Theorem durations_not_negative (data : StoredData.t num) (inputs : list (Input num))
    (t0 : Z) :
  ticking t0 inputs ->
  let s := run (initial data) inputs in
  exists completed,
    StoredData.walks (App.storedData s) = StoredData.walks data ++ completed /\
    Forall (fun w => exists endTime,
                Walk.endTime w = Some endTime /\
                (Walk.startTime w <= endTime)%Z /\ (0 <= Walk.duration w)%Z)
      completed.
Proof.
  intros Hticks s.
  destruct (clocked_from inputs (initial_consistent data) (clocked_initial data t0) Hticks)
    as [T (_ & _ & Hdone)].
  exact Hdone.
Qed.

(** X7. Along every run each zone name on the walk in progress is the name
    of a named zone that contains at least one of the samples processed in
    the walking state: no name gets there without a visit. *)
Theorem zones_only_if_visited (data : StoredData.t num) (inputs : list (Input num)) :
  let s := run (initial data) inputs in
  forall w zoneName,
    App.currentWalk s = Some w ->
    In zoneName (Walk.zonesVisited w) ->
    exists seed samples z p,
      seen data inputs = Some (seed, samples) /\
      In z (StoredData.customZones data) /\ Zone.name z = zoneName /\
      In p samples /\ withinZone z p.
Proof.
  intros s w zoneName Hcw Hin.
  pose proof (visitedOnly_fold inputs (invariant_initial data)) as Hv.
  specialize (Hv I). unfold visitedOnly in Hv.
  pose proof (runSeen_fst inputs (initial data, None)) as Hfst. cbn [fst] in Hfst.
  rewrite Hfst in Hv. fold s in Hv. rewrite Hcw in Hv.
  destruct (invariant_run data inputs) as (_ & _ & _ & Hshape).
  cbn [fst snd] in Hshape. fold s in Hshape. rewrite Hcw in Hshape.
  unfold seen, runSeen in *.
  destruct (snd (fold_left stepSeen inputs (initial data, None))) as [[seed samples] |];
    [| contradiction].
  destruct (Hv zoneName Hin) as (z & p & Hz & Hn & Hp & Hw).
  exists seed, samples, z, p. auto.
Qed.

End MoreOfTheEngine.

(** ** Names of walks and zones *)

Section Names.

Lemma to_int_proper (n : Z) : Z.to_int n <> Decimal.Pos Decimal.Nil /\
                               Z.to_int n <> Decimal.Neg Decimal.Nil.
Proof.
  destruct n as [| p | p]; cbn; split; intros E; try discriminate;
    injection E as E; now apply DecimalPos.Unsigned.to_uint_nonnil in E.
Qed.

Lemma toString_inj (n m : Z) : toString n = toString m -> n = m.
Proof.
  unfold toString. intros E. apply DecimalZ.to_int_inj.
  apply (f_equal NilZero.int_of_string) in E.
  destruct (to_int_proper n) as [Hn1 Hn2], (to_int_proper m) as [Hm1 Hm2].
  rewrite !NilZero.isi in E by assumption. now injection E.
Qed.

Lemma walk_id_inj (t1 t2 : Z) : walk_id t1 = walk_id t2 -> t1 = t2.
Proof.
  unfold walk_id. cbn. intros E. injection E as E. now apply toString_inj in E.
Qed.


End Names.

(** ** Edges of the engine and the history *)

Section Edges.
Context {num : Type} `{JSNumber num}.
Local Open Scope js_scope.

Lemma run_snoc (s : App.t num) (inputs : list (Input num)) (i : Input num) :
  run s (inputs ++ [i]) = step (run s inputs) i.
Proof. unfold run. now rewrite fold_left_app. Qed.

(** X3. Without a home zone, samples only move the current position: after
    any number of them the engine is as it started, in the at_home state
    with no walk, no pending confirmation and its stored data untouched,
    and the current position is that of the last sample. *)
Theorem no_home_no_detection (data : StoredData.t num) (inputs : list (Input num)) :
  StoredData.homeZone data = None ->
  forallb isSample inputs = true ->
  let s := run (initial data) inputs in
  exists position,
    s = setCurrentPosition position (initial data) /\
    forall rest now pos, inputs = rest ++ [Sample now pos] -> position = Some pos.
Proof.
  intros Hhome. induction inputs as [| i inputs IH] using rev_ind; intros Hall s.
  - exists None. split; [reflexivity |]. intros rest now pos E.
    destruct rest; discriminate.
  - rewrite forallb_app in Hall. apply andb_prop in Hall. destruct Hall as [Hall Hi].
    destruct (IH Hall) as [position [Hrun _]].
    subst s. rewrite run_snoc, Hrun.
    destruct i as [now pos |]; [| discriminate]. cbn [step].
    rewrite update_without_home by exact Hhome.
    exists (Some pos). split; [reflexivity |].
    intros rest now' pos' E. apply app_inj_tail in E. destruct E as [_ E].
    now injection E as _ <-.
Qed.

(** X8. A walk started by hand within the home radius ends by itself: with
    no walk in progress and a known position, the manual start creates the
    walk at that position; the first sample within the home radius is
    appended and begins the return, and the second one completes the walk,
    which goes to the history with the two points as its path, the time of
    the first sample as its end and the whole seconds since the start as
    its duration. *)
Theorem manual_walk_at_home_ends_itself (s : App.t num) (hz : Zone.t num)
    (p0 p1 p2 : Position.t num) (t0 t1 t2 : Z) :
  StoredData.homeZone (App.storedData s) = Some hz ->
  App.isWalking s = false ->
  App.currentPosition s = Some p0 ->
  withinHome hz p1 -> withinHome hz p2 ->
  let s0 := handleManualStart t0 s in
  let s2 := processPositionUpdate t2 p2 (processPositionUpdate t1 p1 s0) in
  (App.walkStatusRef s0 = walking /\
   App.currentWalk s0 = Some (Walk.mk (walk_id t0) t0 None 0 (lit 0) [pathPoint p0] [])) /\
  App.walkStatusRef s2 = at_home /\ App.currentWalk s2 = None /\
  App.isWalking s2 = false /\
  StoredData.walks (App.storedData s2) =
    StoredData.walks (App.storedData s) ++
    [Walk.mk (walk_id t0) t0 (Some t1) ((t1 - t0) / 1000)%Z
       (lit 0 + getDistance (Position.latitude p0) (Position.longitude p0)
                  (Position.latitude p1) (Position.longitude p1))
       [pathPoint p0; pathPoint p1]
       (visitZones (Position.latitude p1) (Position.longitude p1)
          (StoredData.customZones (App.storedData s)) (Set_new []))].
Proof.
  intros Hhome Hiw Hpos H1 H2 s0 s2.
  set (w0 := Walk.mk (walk_id t0) t0 None 0 (lit 0) [pathPoint p0] []).
  set (a0 := App.mk (Some p0) true (Some w0) (App.storedData s) walking
               (App.confirmationRef s)).
  assert (E0 : s0 = a0).
  { subst s0. unfold handleManualStart. rewrite Hpos.
    rewrite startWalk_idle by exact Hiw. now rewrite Hpos. }
  set (w1 := walkedTo (StoredData.customZones (App.storedData s)) p1 (pathPoint p0) w0).
  set (a1 := App.mk (Some p1) true (Some w1) (App.storedData s) returning
               (Confirmation.mk 1 t1 None)).
  assert (E1 : processPositionUpdate t1 p1 a0 = a1).
  { rewrite (update_walking t1 p1 a0 hz Hhome w0 (pathPoint p0) eq_refl eq_refl eq_refl).
    cbn zeta. unfold withinHome in H1. rewrite H1. reflexivity. }
  subst s2. rewrite E0, E1.
  split; [split; reflexivity |].
  rewrite (update_returning_within t2 p2 a1 hz Hhome w1 eq_refl eq_refl H2).
  cbn. auto.
Qed.

(** X9. Deleting a zone by its id removes every zone with that id and no
    other, keeping the order of the rest; deleting the zone that was just
    added gives back the state as it was, provided no earlier zone has the
    same id (one added at the same reading of the clock would go as well);
    a declined confirmation changes nothing. *)
Theorem deleteZone_removes_by_id (s : App.t num) (id : string) (now : Z) (name : string)
    (lat lng radius : num) (color : string) :
  (forall z,
     In z (StoredData.customZones (App.storedData (deleteZone true id s))) <->
     In z (StoredData.customZones (App.storedData s)) /\ Zone.id z <> id) /\
  ((forall z, In z (StoredData.customZones (App.storedData s)) ->
              Zone.id z <> ("zone_" ++ toString now)%string) ->
   deleteZone true ("zone_" ++ toString now)
     (addZone now name lat lng radius color s) = s) /\
  deleteZone false id s = s.
Proof.
  split; [| split; [| reflexivity]].
  - intros z. unfold deleteZone. cbn. rewrite filter_In.
    destruct (String.eqb_spec (Zone.id z) id); cbn; intuition congruence.
  - intros Hfresh. unfold deleteZone, addZone, saveData.
    remember ("zone_" ++ toString now)%string as zid eqn:Ezid. clear Ezid. cbn.
    rewrite filter_app. cbn. rewrite String.eqb_refl. cbn. rewrite app_nil_r.
    assert (E : filter (fun z => negb (Zone.id z =? zid)%string)
                  (StoredData.customZones (App.storedData s)) =
                StoredData.customZones (App.storedData s)).
    { induction (StoredData.customZones (App.storedData s)) as [| z zs IH]; [reflexivity |].
      cbn. destruct (String.eqb_spec (Zone.id z) zid) as [E | _].
      - elim (Hfresh z); [now left | exact E].
      - cbn. f_equal. apply IH. intros z' Hz'. apply Hfresh. now right. }
    rewrite E. destruct s as [cp iw cw [hzone zones walks settings] st conf]. reflexivity.
Qed.

(** X10. Walk names tell start times apart, so in a history whose walks
    carry the names the engine gives them, deleting the walk named after a
    start time removes exactly the walks started at that reading of the
    clock and keeps the others in order; a declined confirmation changes
    nothing. *)
Theorem deleteWalk_removes_by_start (s : App.t num) (startTime : Z) :
  (forall t1 t2, walk_id t1 = walk_id t2 -> t1 = t2) /\
  ((forall w, In w (StoredData.walks (App.storedData s)) ->
              Walk.id w = walk_id (Walk.startTime w)) ->
   StoredData.walks (App.storedData (deleteWalk true (walk_id startTime) s)) =
   filter (fun w => negb (Walk.startTime w =? startTime)%Z)
     (StoredData.walks (App.storedData s))) /\
  deleteWalk false (walk_id startTime) s = s.
Proof.
  split; [exact walk_id_inj | split; [| reflexivity]].
  intros Hnamed. unfold deleteWalk, saveData. cbn [App.storedData StoredData.walks].
  induction (StoredData.walks (App.storedData s)) as [| w ws IH]; [reflexivity |].
  cbn [filter]. rewrite IH by (intros w' Hw'; apply Hnamed; now right).
  rewrite (Hnamed w) by now left.
  replace (walk_id (Walk.startTime w) =? walk_id startTime)%string
    with (Walk.startTime w =? startTime)%Z; [reflexivity |].
  destruct (String.eqb_spec (walk_id (Walk.startTime w)) (walk_id startTime)) as [E | NE];
    destruct (Z.eqb_spec (Walk.startTime w) startTime) as [E' | NE'];
    try reflexivity.
  - apply walk_id_inj in E. contradiction.
  - subst. contradiction.
Qed.

End Edges.

(** ** Keyed stores *)

Section Stores.

Lemma Store_get_set_same (key value : string) (m : Store) :
  Store_get key (Store_set key value m) = Some value.
Proof.
  unfold Store_get, Store_set.
  destruct (existsb (fun kv => String.eqb (fst kv) key) m) eqn:E.
  - induction m as [| [k v] m IH]; [discriminate |]. cbn in *.
    destruct (String.eqb_spec k key) as [-> | NE]; cbn.
    + now rewrite String.eqb_refl.
    + destruct (String.eqb_spec k key); [contradiction |]. now apply IH.
  - induction m as [| [k v] m IH]; cbn in *; [now rewrite String.eqb_refl |].
    destruct (String.eqb k key); [discriminate |]. now apply IH.
Qed.

Lemma Store_get_set_other (key key' value : string) (m : Store) :
  key' <> key -> Store_get key' (Store_set key value m) = Store_get key' m.
Proof.
  intros NE. unfold Store_get, Store_set. f_equal.
  destruct (existsb (fun kv => String.eqb (fst kv) key) m).
  - induction m as [| [k v] m IH]; [reflexivity |]. cbn.
    destruct (String.eqb_spec k key) as [-> | NE']; cbn.
    + destruct (String.eqb_spec key key'); [congruence | exact IH].
    + destruct (String.eqb k key'); [reflexivity | exact IH].
  - induction m as [| [k v] m IH]; cbn.
    + destruct (String.eqb_spec key key'); [congruence | reflexivity].
    + destruct (String.eqb k key'); [reflexivity | exact IH].
Qed.

End Stores.

(** ** The history view and the reminder *)

Section Views.
Context {num : Type} `{JSNumber num}.

Lemma zoneColorMap_snoc (zones : list (Zone.t num)) (z : Zone.t num) :
  zoneColorMap (zones ++ [z]) = Store_set (Zone.name z) (Zone.color z) (zoneColorMap zones).
Proof. unfold zoneColorMap. now rewrite fold_left_app. Qed.

Lemma zoneColorMap_absent (zones : list (Zone.t num)) (zoneName : string) :
  (forall z, In z zones -> Zone.name z <> zoneName) ->
  Store_get zoneName (zoneColorMap zones) = None.
Proof.
  induction zones as [| z zones IH] using rev_ind; intros Hnone; [reflexivity |].
  rewrite zoneColorMap_snoc, Store_get_set_other.
  - apply IH. intros z' Hz'. apply Hnone. apply in_app_iff. now left.
  - intros E. apply (Hnone z); [apply in_app_iff; right; now left | now symmetry].
Qed.

Lemma zoneColorMap_last (before after : list (Zone.t num)) (z : Zone.t num) :
  (forall z', In z' after -> Zone.name z' <> Zone.name z) ->
  Store_get (Zone.name z) (zoneColorMap (before ++ z :: after)) = Some (Zone.color z).
Proof.
  induction after as [| z' after IH] using rev_ind; intros Hlater.
  - rewrite zoneColorMap_snoc. apply Store_get_set_same.
  - replace (before ++ z :: after ++ [z']) with ((before ++ z :: after) ++ [z'])
      by (rewrite <- app_assoc; reflexivity).
    rewrite zoneColorMap_snoc, Store_get_set_other.
    + apply IH. intros z'' Hz''. apply Hlater. apply in_app_iff. now left.
    + intros E. apply (Hlater z'); [apply in_app_iff; right; now left | now symmetry].
Qed.

(** X12. The chip of a visited zone in the history takes the colour of the
    last named zone with that name; when no named zone has the name any
    more (the zone was deleted), or that colour is empty, the chip is grey. *)
Theorem chipColor_last_zone_wins (zones : list (Zone.t num)) (zoneName : string) :
  ((forall z, In z zones -> Zone.name z <> zoneName) ->
   chipColor zones zoneName = "#A8A5A3"%string) /\
  (forall before z after,
     zones = before ++ z :: after ->
     Zone.name z = zoneName ->
     (forall z', In z' after -> Zone.name z' <> zoneName) ->
     chipColor zones zoneName = orElse (Zone.color z) "#A8A5A3").
Proof.
  split.
  - intros Hnone. unfold chipColor. now rewrite zoneColorMap_absent.
  - intros before z after -> <- Hlater. unfold chipColor.
    now rewrite zoneColorMap_last.
Qed.

Lemma nth_insertBy (x : Walk.t num) (l : list (Walk.t num))
    (compareFn : Walk.t num -> Walk.t num -> Z) :
  nth_error (insertBy compareFn x l) 0 =
  match nth_error l 0 with
  | None => Some x
  | Some y => if (compareFn x y <=? 0)%Z then Some x else Some y
  end.
Proof. destruct l as [| y l]; cbn; [reflexivity |]. now destruct (compareFn x y <=? 0)%Z. Qed.

Lemma sorted_head (walks : list (Walk.t num)) :
  walks <> [] ->
  exists w before after,
    nth_error (sortBy (fun a b => (endTimeOrZero b - endTimeOrZero a)%Z) walks) 0 = Some w /\
    walks = before ++ w :: after /\
    (forall w', In w' before -> (endTimeOrZero w' < endTimeOrZero w)%Z) /\
    (forall w', In w' after -> (endTimeOrZero w' <= endTimeOrZero w)%Z).
Proof.
  induction walks as [| x rest IH]; intros Hne; [contradiction |].
  cbn [sortBy fold_right]. rewrite nth_insertBy.
  destruct rest as [| y rest'].
  - cbn. exists x, [], []. repeat split; intros w' [].
  - destruct IH as (w & before & after & Hhead & Hsplit & Hbefore & Hafter); [discriminate |].
    fold (sortBy (fun a b => (endTimeOrZero b - endTimeOrZero a)%Z) (y :: rest')).
    rewrite Hhead.
    destruct (Z.leb_spec (endTimeOrZero w - endTimeOrZero x) 0) as [Hle | Hgt].
    + exists x, [], (y :: rest'). repeat split; [intros w' [] |].
      intros w' Hin. rewrite Hsplit in Hin. apply in_app_iff in Hin.
      destruct Hin as [Hin | [<- | Hin]].
      * specialize (Hbefore w' Hin). lia.
      * lia.
      * specialize (Hafter w' Hin). lia.
    + exists w, (x :: before), after. repeat split.
      * now rewrite Hsplit.
      * intros w' [<- | Hin]; [lia | now apply Hbefore].
      * exact Hafter.
Qed.

(** X11. The last walk is absent exactly when the history is empty;
    otherwise it is a walk of the history whose end time (taken as 0 when
    missing) is the latest, and the earliest such walk in the history when
    several share that end time. *)
Theorem lastWalk_is_latest (walks : list (Walk.t num)) :
  (lastWalk walks = None <-> walks = []) /\
  (forall w, lastWalk walks = Some w ->
     exists before after,
       walks = before ++ w :: after /\
       (forall w', In w' before -> (endTimeOrZero w' < endTimeOrZero w)%Z) /\
       (forall w', In w' after -> (endTimeOrZero w' <= endTimeOrZero w)%Z)).
Proof.
  destruct walks as [| x rest].
  - split; [split; reflexivity | intros w E; discriminate].
  - destruct (@sorted_head (x :: rest)) as (w & before & after & Hhead & Hrest);
      [discriminate |].
    unfold lastWalk. rewrite Hhead. split.
    + split; intros E; discriminate.
    + intros w' E. injection E as <-. now exists before, after.
Qed.

End Views.

(** ** The reminder *)

Section Reminder.
Context {num : Type} `{JSNumber num}.

Lemma reminderTick_marks (now : Z) (settings : NotificationSettings.t) (isWalking : bool)
    (w : Walk.t num) (st : Store) :
  fst (reminderTick now settings isWalking (Some w) st) = true ->
  marked (Walk.id w) (snd (reminderTick now settings isWalking (Some w) st)).
Proof.
  unfold reminderTick, marked.
  destruct (Walk.endTime w) as [e |]; [| discriminate].
  destruct (_ || _ || _)%bool; [discriminate |].
  destruct (_ >=? _)%Z; [| discriminate].
  destruct (Store_get ("notified_" ++ Walk.id w) st) as [[| c r] |]; cbn; try discriminate;
    intros _; rewrite Store_get_set_same; eauto.
Qed.

Lemma reminderTick_keeps (now : Z) (settings : NotificationSettings.t) (isWalking : bool)
    (lastWalk : option (Walk.t num)) (st : Store) (id : string) :
  marked id st -> marked id (snd (reminderTick now settings isWalking lastWalk st)).
Proof.
  intros Hm. unfold reminderTick.
  destruct lastWalk as [w |]; [| exact Hm].
  destruct (Walk.endTime w) as [e |]; [| exact Hm].
  destruct (_ || _ || _)%bool; [exact Hm |].
  destruct (_ >=? _)%Z; [| exact Hm].
  destruct (Store_get ("notified_" ++ Walk.id w) st) as [[| c r] |] eqn:E; cbn;
    try exact Hm; unfold marked in *.
  - destruct (string_dec id (Walk.id w)) as [-> | NE].
    + rewrite Store_get_set_same. eauto.
    + rewrite Store_get_set_other; [exact Hm |]. cbn. intros E'. injection E' as E'.
      contradiction.
  - destruct (string_dec id (Walk.id w)) as [-> | NE].
    + rewrite Store_get_set_same. eauto.
    + rewrite Store_get_set_other; [exact Hm |]. cbn. intros E'. injection E' as E'.
      contradiction.
Qed.

Lemma reminderTick_blocked (now : Z) (settings : NotificationSettings.t) (isWalking : bool)
    (w : Walk.t num) (st : Store) :
  marked (Walk.id w) st -> fst (reminderTick now settings isWalking (Some w) st) = false.
Proof.
  intros (c & r & Hm). unfold reminderTick.
  destruct (Walk.endTime w) as [e |]; [| reflexivity].
  destruct (_ || _ || _)%bool; [reflexivity |].
  destruct (_ >=? _)%Z; [| reflexivity].
  now rewrite Hm.
Qed.

Lemma notified_skips_marked (firings : list (@Firing num)) (st : Store) (id : string) :
  marked id st -> ~ In id (notified firings st).
Proof.
  revert st. induction firings as [| [[[now settings] isWalking] lw] rest IH];
    intros st Hm; [intros [] |].
  cbn [notified].
  pose proof (reminderTick_keeps now settings isWalking lw Hm) as Hkeep.
  destruct (reminderTick now settings isWalking lw st) as [raised st'] eqn:E.
  cbn [snd] in Hkeep.
  destruct raised, lw as [w |]; try (now apply IH).
  intros [Hid | Hin]; [| now apply (IH st')].
  subst id. pose proof (@reminderTick_blocked now settings isWalking w st Hm) as Hb.
  rewrite E in Hb. discriminate.
Qed.

(** X13. Over any sequence of firings of the reminder timer, whatever the
    clock, the settings and the last walk at each of them, no walk is
    notified twice in a session, and a walk whose key is already set in
    the session storage is not notified at all. *)
Theorem reminders_never_repeat (firings : list (@Firing num)) (sessionStorage : Store) :
  NoDup (notified firings sessionStorage) /\
  forall id, marked id sessionStorage -> ~ In id (notified firings sessionStorage).
Proof.
  split; [| intros id; apply notified_skips_marked].
  revert sessionStorage.
  induction firings as [| [[[now settings] isWalking] lw] rest IH]; intros st;
    [constructor |].
  cbn [notified].
  destruct (reminderTick now settings isWalking lw st) as [raised st'] eqn:E.
  destruct raised, lw as [w |]; try apply IH.
  constructor; [| apply IH].
  apply notified_skips_marked.
  pose proof (@reminderTick_marks now settings isWalking w st) as Hm.
  rewrite E in Hm. now apply Hm.
Qed.

End Reminder.

(** ** Formatting *)

Section Formatting.

Ltac Zify.zify_post_hook ::= Z.to_euclidean_division_equations.

(** X14. With no time stamp, or the time stamp 0, the time since is blank.
    Otherwise it is the elapsed time in the largest of seconds, minutes,
    hours and days that it reaches, rounded down: whole seconds below a
    minute (always with the unit in the plural), whole minutes below an
    hour, whole hours below a day, whole days from there on, the unit in
    the singular exactly when the count is one. *)
Theorem formatTimeSince_by_elapsed (now timestamp : Z) :
  (formatTimeSince now None = TimeSince.mk "" "" /\
   formatTimeSince now (Some 0) = TimeSince.mk "" "") /\
  (timestamp <> 0 ->
   let elapsed := now - timestamp in
   (elapsed < 60000 ->
    formatTimeSince now (Some timestamp) =
    TimeSince.mk (toString (elapsed / 1000)) "seconds") /\
   (60000 <= elapsed < 3600000 ->
    formatTimeSince now (Some timestamp) =
    TimeSince.mk (toString (elapsed / 60000))
      (if elapsed / 60000 =? 1 then "minute" else "minutes")) /\
   (3600000 <= elapsed < 86400000 ->
    formatTimeSince now (Some timestamp) =
    TimeSince.mk (toString (elapsed / 3600000))
      (if elapsed / 3600000 =? 1 then "hour" else "hours")) /\
   (86400000 <= elapsed ->
    formatTimeSince now (Some timestamp) =
    TimeSince.mk (toString (elapsed / 86400000))
      (if elapsed / 86400000 =? 1 then "day" else "days"))).
Proof.
  split; [split; reflexivity |].
  intros Hnz elapsed. unfold formatTimeSince.
  destruct (Z.eqb_spec timestamp 0) as [E | _]; [contradiction |].
  fold elapsed. cbv zeta.
  assert (Em : elapsed / 1000 / 60 = elapsed / 60000) by lia.
  assert (Eh : elapsed / 1000 / 60 / 60 = elapsed / 3600000) by lia.
  assert (Ed : elapsed / 1000 / 60 / 60 / 24 = elapsed / 86400000) by lia.
  rewrite Ed, Eh, Em.
  repeat split; intros Hrange.
  - destruct (Z.ltb_spec (elapsed / 1000) 60); [reflexivity | lia].
  - destruct (Z.ltb_spec (elapsed / 1000) 60); [lia |].
    destruct (Z.ltb_spec (elapsed / 60000) 60); [reflexivity | lia].
  - destruct (Z.ltb_spec (elapsed / 1000) 60); [lia |].
    destruct (Z.ltb_spec (elapsed / 60000) 60); [lia |].
    destruct (Z.ltb_spec (elapsed / 3600000) 24); [reflexivity | lia].
  - destruct (Z.ltb_spec (elapsed / 1000) 60); [lia |].
    destruct (Z.ltb_spec (elapsed / 60000) 60); [lia |].
    destruct (Z.ltb_spec (elapsed / 3600000) 24); [lia | reflexivity].
Qed.









(** X16. A negative duration is shown as zero seconds in both styles. *)
Theorem formatDuration_negative (seconds : Z) :
  seconds < 0 ->
  formatDuration seconds short = "0s"%string /\
  formatDuration seconds long = "0 sec"%string.
Proof.
  intros Hneg. unfold formatDuration.
  destruct (Z.gtb_spec (seconds / 3600) 0); [lia |].
  destruct (Z.gtb_spec (Z.rem seconds 3600 / 60) 0); [lia |].
  destruct (Z.eqb_spec (seconds / 3600) 0); [lia |].
  split; reflexivity.
Qed.

End Formatting.

(** ** The range of the distance *)

Module GeodesyRange.
Import RealNumber RealGeodesy.
Local Open Scope R_scope.






(** X18. Once home is set at a position, a sample at that very position is
    within the home radius: met at home or while leaving it leaves the
    engine at home with no walk started, and met in the walking state it
    begins the return. *)
Theorem sample_at_new_home (s : App.t R) (pos : Position.t R) (now : Z) :
  let s0 := setHome pos s in
  let s1 := processPositionUpdate now pos s0 in
  (exists hz, StoredData.homeZone (App.storedData s0) = Some hz /\
              Zone.radius hz = HOME_RADIUS_KM /\ withinHome hz pos) /\
  (App.walkStatusRef s = at_home \/ App.walkStatusRef s = leaving ->
   App.walkStatusRef s1 = at_home /\ App.currentWalk s1 = App.currentWalk s /\
   App.isWalking s1 = App.isWalking s) /\
  (consistent s -> App.walkStatusRef s = walking -> App.walkStatusRef s1 = returning).
Proof.
  intros s0 s1.
  set (hz := Zone.mk "home" "Home" (Position.latitude pos) (Position.longitude pos)
               (@HOME_RADIUS_KM R _) "#A8A5A3").
  assert (Hhome : StoredData.homeZone (App.storedData s0) = Some hz) by reflexivity.
  assert (Hin : withinHome hz pos).
  { unfold withinHome, distanceFromHome. cbn [hz Zone.latitude Zone.longitude leb number].
    apply le_bool_true. rewrite getDistance_self, HOME_RADIUS_KM_eq. lra. }
  split; [exists hz; repeat split; assumption |]. split.
  - intros [Hst | Hst]; subst s1.
    + rewrite (update_at_home_stay now pos s0 hz Hhome Hst (within_not_beyond Hin)).
      cbn. auto.
    + rewrite (update_leaving_back now pos s0 hz Hhome Hst (within_not_beyond Hin)).
      cbn. auto.
  - intros Hc Hst. subst s1.
    assert (Hc0 : consistent s0) by exact Hc.
    destruct (App.currentWalk s) as [w |] eqn:Hcw.
    + destruct (consistent_busy Hc0 (w := w)) as [_ [lastPoint Hlast]]; [exact Hcw |].
      rewrite (update_walking now pos s0 hz Hhome w lastPoint Hst Hcw Hlast).
      cbn zeta. unfold withinHome in Hin. rewrite Hin. reflexivity.
    + destruct Hc as (Hc1 & Hc2 & _). rewrite Hst, Hcw in *. cbn in *. congruence.
Qed.

End GeodesyRange.

(** ** The household at work *)

Module AtHousehold.
Import RealNumber RealGeodesy Example ExampleRuns Household.

Lemma session_of_inputs (inputs : list (Input R)) (s : App.t R) :
  session s (map (@Engine R) inputs) = run s inputs.
Proof.
  revert s. induction inputs as [| i inputs IH]; intros s; [reflexivity |].
  cbn. apply IH.
Qed.

Lemma departure_run :
  run (initial data) departure =
  App.mk (Some farPos) false None data leaving
    (Confirmation.mk 2 1000 (Some (pathPoint farPos))).
Proof.
  destruct outing_states as (E1 & E2 & _).
  unfold run, departure. cbn [fold_left]. now rewrite E1, E2.
Qed.

Lemma walking_flag_tracks_walk_witness :
  App.isWalking (session (initial data) (map (@Engine R) outing)) = true /\
  exists w, App.currentWalk (session (initial data) (map (@Engine R) outing)) = Some w.
Proof.
  assert (Hiw : App.isWalking (session (initial data) (map (@Engine R) outing)) = true)
    by (rewrite session_of_inputs, outing_run; reflexivity).
  split; [exact Hiw |].
  apply (proj1 (walking_flag_tracks_walk data (map (@Engine R) outing))). exact Hiw.
Defined.

Lemma no_home_no_detection_witness :
  StoredData.homeZone unset = None /\
  exists position,
    run (initial unset) [Sample 1 nearPos; Sample 2 farPos] =
    setCurrentPosition position (initial unset) /\
    forall rest now pos,
      [Sample 1 nearPos; Sample 2 farPos] = rest ++ [Sample now pos] -> position = Some pos.
Proof.
  split; [reflexivity |].
  apply (no_home_no_detection unset [Sample 1 nearPos; Sample 2 farPos]); reflexivity.
Defined.

Lemma confirmation_count_in_range_witness :
  App.walkStatusRef (run (initial data) departure) = leaving /\
  (Confirmation.points (App.confirmationRef (run (initial data) departure)) = 1 \/
   Confirmation.points (App.confirmationRef (run (initial data) departure)) = 2)%Z.
Proof.
  assert (Hst : App.walkStatusRef (run (initial data) departure) = leaving)
    by (rewrite departure_run; reflexivity).
  split; [exact Hst |].
  apply (proj1 (confirmation_count_in_range data departure) Hst).
Defined.

Lemma walk_records_in_order_witness :
  App.currentWalk (run (initial data) outing) = Some outingWalk /\
  Walk.id outingWalk = walk_id (Walk.startTime outingWalk).
Proof.
  assert (Hcw : App.currentWalk (run (initial data) outing) = Some outingWalk)
    by (rewrite outing_run; reflexivity).
  split; [exact Hcw |].
  apply (proj1 (walk_records_in_order data outing) outingWalk Hcw).
Defined.

Lemma durations_not_negative_witness :
  ticking 0 thereAndBack /\
  exists completed,
    StoredData.walks (App.storedData (run (initial data) thereAndBack)) =
    StoredData.walks data ++ completed /\
    Forall (fun w => exists endTime,
                Walk.endTime w = Some endTime /\
                (Walk.startTime w <= endTime)%Z /\ (0 <= Walk.duration w)%Z)
      completed.
Proof.
  assert (Hticks : ticking 0 thereAndBack) by (cbn; lia).
  split; [exact Hticks |].
  apply (durations_not_negative data thereAndBack 0 Hticks).
Defined.

Lemma zones_only_if_visited_witness :
  In "Park"%string (Walk.zonesVisited outingWalk) /\
  exists seed samples z p,
    seen data outing = Some (seed, samples) /\
    In z (StoredData.customZones data) /\ Zone.name z = "Park"%string /\
    In p samples /\ withinZone z p.
Proof.
  assert (Hin : In "Park"%string (Walk.zonesVisited outingWalk)) by (left; reflexivity).
  split; [exact Hin |].
  assert (Hcw : App.currentWalk (run (initial data) outing) = Some outingWalk)
    by (rewrite outing_run; reflexivity).
  apply (zones_only_if_visited data outing (w := outingWalk) "Park"%string Hcw Hin).
Defined.

Lemma manual_walk_at_home_ends_itself_witness :
  withinHome home nearPos /\
  App.walkStatusRef
    (processPositionUpdate 9000 nearPos
       (processPositionUpdate 7000 nearPos (handleManualStart 2000 atTheDoor))) = at_home /\
  App.currentWalk
    (processPositionUpdate 9000 nearPos
       (processPositionUpdate 7000 nearPos (handleManualStart 2000 atTheDoor))) = None.
Proof.
  split; [exact near_within |].
  destruct (manual_walk_at_home_ends_itself atTheDoor (hz := home) (p0 := nearPos)
              2000 7000 9000 eq_refl eq_refl eq_refl near_within near_within)
    as (_ & Hst & Hcw & _).
  split; [exact Hst | exact Hcw].
Defined.

Lemma deleteZone_removes_by_id_witness :
  (forall z, In z (StoredData.customZones (App.storedData (initial data))) ->
             Zone.id z <> ("zone_" ++ toString 8)%string) /\
  deleteZone true ("zone_" ++ toString 8)
    (addZone 8 "Pond"%string 1%R 2%R 3%R "#34D399"%string (initial data)) = initial data.
Proof.
  assert (Hfresh : forall z, In z (StoredData.customZones (App.storedData (initial data))) ->
                             Zone.id z <> ("zone_" ++ toString 8)%string).
  { intros z [<- | []]. discriminate. }
  split; [exact Hfresh |].
  apply (proj1 (proj2 (deleteZone_removes_by_id (initial data) ""%string 8 "Pond"%string
                         1%R 2%R 3%R "#34D399"%string)) Hfresh).
Defined.

Lemma deleteWalk_removes_by_start_witness :
  (forall w, In w (StoredData.walks (App.storedData withHistory)) ->
             Walk.id w = walk_id (Walk.startTime w)) /\
  StoredData.walks (App.storedData (deleteWalk true (walk_id 7) withHistory)) =
  [morning; evening].
Proof.
  assert (Hnamed : forall w, In w (StoredData.walks (App.storedData withHistory)) ->
                             Walk.id w = walk_id (Walk.startTime w)).
  { intros w [<- | [<- | [<- | []]]]; reflexivity. }
  split; [exact Hnamed |].
  exact (proj1 (proj2 (deleteWalk_removes_by_start withHistory 7)) Hnamed).
Defined.

Lemma lastWalk_is_latest_witness :
  lastWalk history = Some noon /\
  exists before after,
    history = before ++ noon :: after /\
    (forall w', In w' before -> (endTimeOrZero w' < endTimeOrZero noon)%Z) /\
    (forall w', In w' after -> (endTimeOrZero w' <= endTimeOrZero noon)%Z).
Proof.
  assert (Hlast : lastWalk history = Some noon) by reflexivity.
  split; [exact Hlast |].
  apply (proj2 (lastWalk_is_latest history) noon Hlast).
Defined.

Lemma chipColor_last_zone_wins_witness :
  twoParks = [oldPark] ++ park :: [] /\
  chipColor twoParks "Park"%string = "#F87171"%string.
Proof.
  split; [reflexivity |].
  apply (proj2 (chipColor_last_zone_wins twoParks "Park"%string) [oldPark] park [] eq_refl eq_refl).
  intros z' [].
Defined.

Lemma reminders_never_repeat_witness :
  marked (Walk.id noon) reminded /\ ~ In (Walk.id noon) (notified evenings reminded).
Proof.
  assert (Hm : marked (Walk.id noon) reminded)
    by (unfold marked; eexists; eexists; reflexivity).
  split; [exact Hm |].
  apply (proj2 (reminders_never_repeat evenings reminded) (Walk.id noon) Hm).
Defined.

Lemma formatTimeSince_by_elapsed_witness :
  (1000 <> 0)%Z /\
  formatTimeSince 200000 (Some 1000%Z) = TimeSince.mk "3"%string "minutes"%string.
Proof.
  assert (Hnz : (1000 <> 0)%Z) by discriminate.
  split; [exact Hnz |].
  destruct (proj2 (formatTimeSince_by_elapsed 200000 1000) Hnz) as (_ & Hminutes & _).
  apply Hminutes. split; [apply Z.leb_le | apply Z.ltb_lt]; reflexivity.
Defined.


Lemma formatDuration_negative_witness :
  (-5 < 0)%Z /\ formatDuration (-5) short = "0s"%string.
Proof.
  assert (Hneg : (-5 < 0)%Z) by reflexivity.
  split; [exact Hneg |].
  apply (proj1 (formatDuration_negative Hneg)).
Defined.

Lemma sample_at_new_home_witness :
  App.walkStatusRef (initial unset) = at_home /\
  App.walkStatusRef
    (processPositionUpdate 1000 farPos (setHome farPos (initial unset))) = at_home.
Proof.
  split; [reflexivity |].
  apply (proj1 (proj2 (GeodesyRange.sample_at_new_home (initial unset) farPos 1000))).
  left. reflexivity.
Defined.

End AtHousehold.

(** ** The zones form and the reminder switch *)

Section FormsAndSwitches.
Context {num : Type} `{JSNumber num}.
Local Open Scope js_scope.

Lemma step_keeps_zones (s : App.t num) (i : Input num) :
  consistent s ->
  StoredData.customZones (App.storedData (step s i)) =
  StoredData.customZones (App.storedData s).
Proof.
  intros Hc. destruct i as [now pos | now]; cbn [step].
  - destruct (sample_row now pos Hc); reflexivity.
  - destruct (manual_row now Hc); reflexivity.
Qed.

Lemma handleAddZone_consistent (now : Z) (form : ZoneForm.t) (s : App.t num) :
  consistent s -> consistent (snd (handleAddZone now form s)).
Proof.
  intros Hc. unfold handleAddZone.
  destruct (trim (ZoneForm.zoneName form)); [exact Hc |].
  destruct (App.currentPosition s); [| exact Hc].
  destruct (parseInt (ZoneForm.zoneRadius form)) as [r |]; [| exact Hc].
  destruct (r <=? 0)%Z; exact Hc.
Qed.

Lemma handleToggle_consistent (supported : bool) (permission answer : Permission)
    (s : App.t num) :
  consistent s -> consistent (handleToggle supported permission answer s).
Proof.
  intros Hc. unfold handleToggle.
  destruct (_ && _ && _)%bool; [| exact Hc].
  destruct (Permission_eqb answer granted); exact Hc.
Qed.

Lemma consistent_respond (s : App.t num) (g : Gesture num) :
  consistent s -> consistent (respond s g).
Proof.
  intros Hc. destruct g as [i | pos | now form | confirmed id | confirmed id
                           | supported permission answer]; cbn [respond].
  - now apply consistent_step.
  - exact Hc.
  - now apply handleAddZone_consistent.
  - unfold deleteZone. destruct confirmed; exact Hc.
  - unfold deleteWalk. destruct confirmed; exact Hc.
  - now apply handleToggle_consistent.
Qed.

(** X20. The reminder switch turns reminders on only with permission:
    where notifications are supported, reminders are on after a press only
    if they were off before and permission was already granted or is
    granted in reply to the request; a press while they are on always
    turns them off; and a press changes nothing but the enabled flag. *)
Theorem handleToggle_needs_permission (supported : bool) (permission answer : Permission)
    (s : App.t num) :
  let enabled s := NotificationSettings.enabled (StoredData.settings (App.storedData s)) in
  let s' := handleToggle supported permission answer s in
  (enabled s' = true ->
   enabled s = false /\
   (supported = true -> permission = granted \/ answer = granted)) /\
  (enabled s = true -> enabled s' = false) /\
  NotificationSettings.hours (StoredData.settings (App.storedData s')) =
    NotificationSettings.hours (StoredData.settings (App.storedData s)) /\
  StoredData.homeZone (App.storedData s') = StoredData.homeZone (App.storedData s) /\
  StoredData.customZones (App.storedData s') = StoredData.customZones (App.storedData s) /\
  StoredData.walks (App.storedData s') = StoredData.walks (App.storedData s) /\
  App.currentWalk s' = App.currentWalk s /\
  App.walkStatusRef s' = App.walkStatusRef s.
Proof.
  cbv zeta. unfold handleToggle.
  destruct (NotificationSettings.enabled (StoredData.settings (App.storedData s))) eqn:En;
    destruct supported, permission, answer; cbn; rewrite ?En;
    repeat split; intros; try discriminate; try reflexivity; auto.
Qed.

End FormsAndSwitches.

Module ZonesForm.
Import RealNumber RealGeodesy.
Local Open Scope R_scope.

Lemma handleAddZone_sound (now : Z) (form : ZoneForm.t) (s : App.t R) :
  Forall SoundZone.holds (StoredData.customZones (App.storedData s)) ->
  Forall SoundZone.holds
    (StoredData.customZones (App.storedData (snd (handleAddZone now form s)))).
Proof.
  intros Hz. unfold handleAddZone.
  destruct (trim (ZoneForm.zoneName form)) as [| c rest] eqn:Ename; [exact Hz |].
  destruct (App.currentPosition s) as [pos |]; [| exact Hz].
  destruct (parseInt (ZoneForm.zoneRadius form)) as [r |]; [| exact Hz].
  destruct (Z.leb_spec r 0) as [Hle | Hgt]; [exact Hz |].
  cbn. apply Forall_app. split; [exact Hz |]. constructor; [| constructor].
  unfold SoundZone.holds. cbn. split.
  - rewrite !lit_Z. apply Rdiv_lt_0_compat; [now apply IZR_lt | lra].
  - unfold trim in Ename |- *. rewrite Ename. discriminate.
Qed.

(** X19. Through the views no unsound zone comes to be: if every named
    zone starts with a radius above zero and a name that is not blank, so
    does every named zone after any sequence of samples, manual starts,
    settings of home, submissions of the zones form (whatever is typed
    into it), deletions and presses of the reminder switch. *)
Theorem zones_stay_sound (data : StoredData.t R) (gestures : list (Gesture R)) :
  Forall SoundZone.holds (StoredData.customZones data) ->
  Forall SoundZone.holds
    (StoredData.customZones (App.storedData (use (initial data) gestures))).
Proof.
  intros Hdata.
  assert (Hgen : forall s, consistent s ->
            Forall SoundZone.holds (StoredData.customZones (App.storedData s)) ->
            Forall SoundZone.holds
              (StoredData.customZones (App.storedData (use s gestures)))).
  { induction gestures as [| g gestures IH]; intros s Hc Hz; [exact Hz |].
    cbn. apply IH; [now apply consistent_respond |].
    destruct g as [i | pos | now form | confirmed id | confirmed id
                  | supported permission answer]; cbn [respond].
    - now rewrite step_keeps_zones.
    - exact Hz.
    - now apply handleAddZone_sound.
    - unfold deleteZone. destruct confirmed; [| exact Hz]. cbn.
      apply Forall_forall. intros z Hin. apply filter_In in Hin.
      destruct Hin as [Hin _]. revert z Hin. now apply Forall_forall.
    - unfold deleteWalk. destruct confirmed; exact Hz.
    - unfold handleToggle. destruct (_ && _ && _)%bool; [| exact Hz].
      destruct (Permission_eqb answer granted); exact Hz. }
  apply Hgen; [apply initial_consistent | exact Hdata].
Qed.

End ZonesForm.

Module AtTheForm.
Import RealNumber RealGeodesy Example Household.
Local Open Scope R_scope.

Lemma zones_stay_sound_witness :
  Forall SoundZone.holds (StoredData.customZones data) /\
  Forall SoundZone.holds
    (StoredData.customZones (App.storedData (use (initial data) afternoon))).
Proof.
  assert (Hdata : Forall SoundZone.holds (StoredData.customZones data)).
  { constructor; [| constructor]. unfold SoundZone.holds. cbn. split; [lra | discriminate]. }
  split; [exact Hdata |].
  apply (ZonesForm.zones_stay_sound data afternoon Hdata).
Defined.

Lemma handleToggle_needs_permission_witness :
  NotificationSettings.enabled
    (StoredData.settings (App.storedData (handleToggle true default granted (initial data))))
  = true /\
  (true = true -> default = granted \/ granted = granted).
Proof.
  assert (Hon : NotificationSettings.enabled
                  (StoredData.settings
                     (App.storedData (handleToggle true default granted (initial data))))
                = true) by reflexivity.
  split; [exact Hon |].
  apply (proj1 (handleToggle_needs_permission true default granted (initial data)) Hon).
Defined.

End AtTheForm.

(** ** The reminder and the engine *)

Section ReminderAndEngine.
Context {num : Type} `{JSNumber num}.

(** X21. After any sequence of actions, no reminder is raised while a walk
    is in progress, and the session storage stays as it is; when a
    reminder is raised, reminders are enabled and the last walk of the
    history has an end time other than 0 that lies at least the set number
    of hours back. *)
Theorem no_reminder_during_walk (data : StoredData.t num) (actions : list (Action num))
    (now : Z) (sessionStorage : Store) :
  let s := session (initial data) actions in
  ((exists w, App.currentWalk s = Some w) ->
   remind now s sessionStorage = (false, sessionStorage)) /\
  (fst (remind now s sessionStorage) = true ->
   NotificationSettings.enabled (StoredData.settings (App.storedData s)) = true /\
   exists w endTime,
     lastWalk (StoredData.walks (App.storedData s)) = Some w /\
     Walk.endTime w = Some endTime /\ endTime <> 0 /\
     NotificationSettings.hours (StoredData.settings (App.storedData s)) * 3600000
       <= now - endTime).
Proof.
  intros s.
  destruct (consistent_session actions (initial_consistent data)) as (_ & Hc2 & _).
  fold s in Hc2. unfold remind, reminderTick. split.
  - intros [w Hcw]. rewrite Hcw in Hc2. cbn in Hc2. rewrite Hc2.
    destruct (lastWalk (StoredData.walks (App.storedData s))) as [lw |]; [| reflexivity].
    destruct (Walk.endTime lw); [| reflexivity].
    now rewrite orb_true_r.
  - destruct (lastWalk (StoredData.walks (App.storedData s))) as [lw |]; [| discriminate].
    destruct (Walk.endTime lw) as [e |] eqn:Hend; [| discriminate].
    destruct (NotificationSettings.enabled (StoredData.settings (App.storedData s)));
      [| discriminate].
    destruct (App.isWalking s); [discriminate |]. cbn [negb orb].
    destruct (Z.eqb_spec e 0) as [| Hnz]; [discriminate |].
    rewrite Z.geb_leb.
    destruct (Z.leb_spec
                (NotificationSettings.hours (StoredData.settings (App.storedData s))
                 * 3600000) (now - e)) as [Hle | Hlt]; [| discriminate].
    intros _. split; [reflexivity |]. exists lw, e. repeat split; assumption || reflexivity.
Qed.

End ReminderAndEngine.

Module AtTheReminder.
Import RealNumber RealGeodesy Example ExampleRuns Household.

Lemma no_reminder_during_walk_witness :
  (exists w, App.currentWalk (session (initial data) (map (@Engine R) outing)) = Some w) /\
  remind 50000000 (session (initial data) (map (@Engine R) outing)) reminded =
  (false, reminded).
Proof.
  assert (Hcw : exists w,
             App.currentWalk (session (initial data) (map (@Engine R) outing)) = Some w).
  { exists outingWalk. rewrite AtHousehold.session_of_inputs, outing_run. reflexivity. }
  split; [exact Hcw |].
  apply (proj1 (no_reminder_during_walk data (map (@Engine R) outing) 50000000 reminded) Hcw).
Defined.

End AtTheReminder.
